(** * The DaVinci Resolve bridge: session context, refresh and routing

    A shallow embedding of [src/bridge/resolve_bridge.py].  The class
    [ResolveBridge] caches five references into the scripting API of the
    host application (the application handle, its project manager, the
    current project, its media pool and its current timeline) and serves
    every request through [call_api], which refreshes the cache and routes
    the method name to a handler group.

    The host application is outside the repository.  It is modelled as an
    arbitrary deterministic transition system [ext] over an abstract type
    [World]: every scripting call takes the world, answers with a value or
    raises an exception, and leaves a new world.  Changes a human makes in
    the application between two requests are a change of [World] between
    two runs of [call_api]. *)

From Stdlib Require Import ZArith List String Ascii Bool Lia.
From stdpp Require Import gmap strings.
Import ListNotations.

(** ** References, exceptions and values *)

(** A reference to an object of the scripting API. *)
Definition handle := nat.

(** An exception in flight, identified with its description [str(e)]. *)
Definition exn := string.

(** The argument mapping of a request ([Dict[str, Any]]); the handlers only
    ever read string-valued entries from it. *)
Abbreviation arguments := (gmap string string).

(** [args.get(key, "")] *)
Definition get (args : arguments) (key : string) : string :=
  default EmptyString (args !! key).

(** The values a handler can put under the ["result"] key. *)
Inductive pyvalue : Type :=
| PyNone
| PyBool (b : bool)
| PyStr (s : string)
| PyList (l : list string).

(** The dictionaries [call_api] returns: [{"result": v}], [{"error": msg}]
    and [{"error": msg, "traceback": tb}]. *)
Inductive response : Type :=
| Result (v : pyvalue)
| Error (msg : string)
| ErrorTraceback (msg tb : string).

(** A failure outcome is a dictionary with an ["error"] key. *)
Definition is_error (r : response) : bool :=
  match r with
  | Result _ => false
  | Error _ | ErrorTraceback _ _ => true
  end.

(** ** The scripting API

    One constructor per method of the scripting API the bridge invokes,
    applied to the receiver and the arguments, and one for [print], the
    only other call the bridge makes to the outside: writing a line to
    the standard output can raise like any other call. *)
Inductive call : Type :=
| scriptapp
| GetProjectManager (r : handle)
| OpenPage (r : handle) (page : string)
| GetCurrentProject (pm : handle)
| CreateProject (pm : handle) (name : string)
| LoadProject (pm : handle) (name : string)
| SaveProject (pm : handle)
| CloseProject (pm : handle) (p : option handle)
| GetMediaPool (p : handle)
| GetCurrentTimeline (p : handle)
| GetName (obj : handle)
| GetTimelineCount (p : handle)
| GetTimelineByIndex (p : handle) (i : Z)
| DeleteTimeline (p t : handle)
| SetCurrentTimeline (p t : handle)
| CreateEmptyTimeline (mp : handle) (name : string)
| ImportMedia (mp : handle) (paths : list string)
| CreateBin (mp : handle) (name : string)
| print (text : string).

(** The type of the answer of each call; [None] is Python's [None]. *)
Definition reply (c : call) : Type :=
  match c with
  | scriptapp | GetProjectManager _ | GetCurrentProject _
  | CreateProject _ _ | LoadProject _ _ | GetMediaPool _
  | GetCurrentTimeline _ | GetTimelineByIndex _ _
  | CreateEmptyTimeline _ _ | CreateBin _ _ => option handle
  | OpenPage _ _ | SaveProject _ | CloseProject _ _
  | DeleteTimeline _ _ | SetCurrentTimeline _ _ => bool
  | GetName _ => string
  | GetTimelineCount _ => Z
  | ImportMedia _ _ => list handle
  | print _ => unit
  end.

(** The calls that ask the application to change something, as opposed to
    the accessors. *)
Definition mutating (c : call) : bool :=
  match c with
  | OpenPage _ _ | CreateProject _ _ | LoadProject _ _ | SaveProject _
  | CloseProject _ _ | DeleteTimeline _ _ | SetCurrentTimeline _ _
  | CreateEmptyTimeline _ _ | ImportMedia _ _ | CreateBin _ _ => true
  | _ => false
  end.

(** ** The session context: the attributes of [ResolveBridge] *)
Record ResolveBridge : Type := Bridge {
  resolve : option handle;
  project_manager : option handle;
  project : option handle;
  media_pool : option handle;
  timeline : option handle
}.

Definition with_project (v : option handle) (s : ResolveBridge) :=
  Bridge (resolve s) (project_manager s) v (media_pool s) (timeline s).
Definition with_media_pool (v : option handle) (s : ResolveBridge) :=
  Bridge (resolve s) (project_manager s) (project s) v (timeline s).
Definition with_timeline (v : option handle) (s : ResolveBridge) :=
  Bridge (resolve s) (project_manager s) (project s) (media_pool s) v.

(** [range(lo, hi)] *)
Definition range (lo hi : Z) : list Z := seqZ lo (hi - lo)%Z.

(** ** Python statements as a state and exception monad

    A computation reads and writes the attributes of [self], talks to the
    application, and either returns or raises.  Attribute writes made
    before an exception is raised persist.  The [trace] lists the calls
    the computation issued, in order. *)
Record outcome (World A : Type) : Type := Out {
  value : exn + A;
  self : ResolveBridge;
  world : World;
  trace : list call
}.
Arguments Out {World A} _ _ _ _.
Arguments value {World A} _.
Arguments self {World A} _.
Arguments world {World A} _.
Arguments trace {World A} _.

Definition M (World A : Type) : Type := ResolveBridge -> World -> outcome World A.

Section Monad.
Context {World : Type}.

Definition ret {A} (a : A) : M World A := fun s w => Out (inr a) s w [].

Definition raise {A} (e : exn) : M World A := fun s w => Out (inl e) s w [].

Definition bind {A B} (m : M World A) (k : A -> M World B) : M World B :=
  fun s w =>
    match m s w with
    | Out (inl e) s1 w1 t1 => Out (inl e) s1 w1 t1
    | Out (inr a) s1 w1 t1 =>
        match k a s1 w1 with
        | Out v s2 w2 t2 => Out v s2 w2 (t1 ++ t2)
        end
    end.

(** [try: m  except Exception as e: h e] *)
Definition try_except {A} (m : M World A) (h : exn -> M World A) : M World A :=
  fun s w =>
    match m s w with
    | Out (inl e) s1 w1 t1 =>
        match h e s1 w1 with
        | Out v s2 w2 t2 => Out v s2 w2 (t1 ++ t2)
        end
    | Out (inr a) s1 w1 t1 => Out (inr a) s1 w1 t1
    end.

(** Reading an attribute of [self]. *)
Definition attr {A} (f : ResolveBridge -> A) : M World A :=
  fun s w => Out (inr (f s)) s w [].

(** Assigning an attribute of [self]. *)
Definition assign (f : ResolveBridge -> ResolveBridge) : M World unit :=
  fun s w => Out (inr tt) (f s) w [].
End Monad.

Notation "'let!' x ':=' m 'in' k" := (bind m (fun x => k))
  (at level 10, x name, m at level 100, k at level 200).
Notation "m '>>' k" := (bind m (fun _ => k))
  (at level 100, k at level 200, right associativity).

(** Calling a method on [None] raises [AttributeError]. *)
Definition AttributeError (method : string) : exn :=
  ("'NoneType' object has no attribute '" ++ method ++ "'")%string.

(** ** The bridge *)
Section Bridge.
Context {World : Type}.

(** The host application: the answer to a call, or the exception it
    raises, and the world the call leaves. *)
Variable ext : World -> forall c : call, (exn + reply c) * World.

(** The module-level flag set by [import DaVinciResolveScript]. *)
Variable RESOLVE_AVAILABLE : bool.

(** [traceback.format_exc()], the interpreter's rendering of the stack
    of the exception being handled. *)
Variable format_exc : exn -> string.

Local Abbreviation M := (M World).

(** A call into the scripting API. *)
Definition invoke (c : call) : M (reply c) :=
  fun s w => let (r, w') := ext w c in Out r s w' [c].

Definition __init__ : M unit :=
  assign (fun _ => Bridge None None None None None) >>
  if RESOLVE_AVAILABLE then
    try_except
      (let! r := invoke scriptapp in
       assign (fun s => Bridge r (project_manager s) (project s)
                          (media_pool s) (timeline s)) >>
       match r with
       | Some r =>
           let! pm := invoke (GetProjectManager r) in
           assign (fun s => Bridge (resolve s) pm (project s)
                              (media_pool s) (timeline s)) >>
           match pm with
           | Some pm =>
               let! p := invoke (GetCurrentProject pm) in
               assign (with_project p) >>
               match p with
               | Some p =>
                   let! mp := invoke (GetMediaPool p) in
                   assign (with_media_pool mp) >>
                   let! t := invoke (GetCurrentTimeline p) in
                   assign (with_timeline t)
               | None => ret tt
               end
           | None => raise (AttributeError "GetCurrentProject")
           end
       | None => ret tt
       end)
      (fun e =>
         invoke (print ("Warning: Could not connect to DaVinci Resolve: "
                        ++ e)) >>
         ret tt)
  else ret tt.

(** The body of the [try] block of [_refresh_current_objects]. *)
Definition _refresh_current_objects_try : M unit :=
  let! pm := attr project_manager in
  match pm with
  | Some pm =>
      let! p := invoke (GetCurrentProject pm) in
      assign (with_project p) >>
      match p with
      | Some p =>
          let! mp := invoke (GetMediaPool p) in
          assign (with_media_pool mp) >>
          let! t := invoke (GetCurrentTimeline p) in
          assign (with_timeline t)
      | None => ret tt
      end
  | None => ret tt
  end.

Definition _refresh_current_objects : M unit :=
  try_except _refresh_current_objects_try (fun _ => ret tt).

(** The loop of [get_timelines] over the indices still to visit, with
    the names collected so far. *)
Fixpoint get_timelines_loop (p : handle) (idxs : list Z)
    (timelines : list string) : M (list string) :=
  match idxs with
  | [] => ret timelines
  | i :: rest =>
      let! timeline := invoke (GetTimelineByIndex p i) in
      match timeline with
      | Some t =>
          let! n := invoke (GetName t) in
          get_timelines_loop p rest (timelines ++ [n])
      | None => get_timelines_loop p rest timelines
      end
  end.

Definition _handle_general_method (method : string) (args : arguments)
    : M response :=
  if String.eqb method "is_running" then
    let! r := attr resolve in
    ret (Result (PyBool (match r with Some _ => true | None => false end)))
  else if String.eqb method "get_current_project_name" then
    let! p := attr project in
    match p with
    | Some p =>
        let! name := invoke (GetName p) in
        ret (Result (PyStr name))
    | None => ret (Result PyNone)
    end
  else if String.eqb method "get_timelines" then
    let! p := attr project in
    match p with
    | Some p =>
        let! timeline_count := invoke (GetTimelineCount p) in
        let! timelines :=
          get_timelines_loop p (range 1 (timeline_count + 1)%Z) [] in
        ret (Result (PyList timelines))
    | None => ret (Result (PyList []))
    end
  else if String.eqb method "switch_page" then
    let page := get args "page" in
    let! r := attr resolve in
    match r with
    | Some r =>
        let! success := invoke (OpenPage r page) in
        ret (Result (PyBool success))
    | None => raise (AttributeError "OpenPage")
    end
  else
    ret (Error ("Unknown general method: " ++ method)).

Definition _handle_project_method (method : string) (args : arguments)
    : M response :=
  if String.eqb method "project_create" then
    let name := get args "name" in
    let failed := Error ("Failed to create project '" ++ name ++ "'") in
    let! pm := attr project_manager in
    match pm with
    | Some pm =>
        let! project := invoke (CreateProject pm name) in
        match project with
        | Some p =>
            assign (with_project (Some p)) >>
            let! mp := invoke (GetMediaPool p) in
            assign (with_media_pool mp) >>
            ret (Result (PyStr ("Created project '" ++ name ++ "'")))
        | None => ret failed
        end
    | None => ret failed
    end
  else if String.eqb method "project_open" then
    let name := get args "name" in
    let failed := Error ("Failed to open project '" ++ name ++ "'") in
    let! pm := attr project_manager in
    match pm with
    | Some pm =>
        let! project := invoke (LoadProject pm name) in
        match project with
        | Some p =>
            assign (with_project (Some p)) >>
            let! mp := invoke (GetMediaPool p) in
            assign (with_media_pool mp) >>
            ret (Result (PyStr ("Opened project '" ++ name ++ "'")))
        | None => ret failed
        end
    | None => ret failed
    end
  else if String.eqb method "project_save" then
    let! pm := attr project_manager in
    match pm with
    | Some pm =>
        let! success := invoke (SaveProject pm) in
        ret (Result (PyBool success))
    | None => ret (Error "No project manager available")
    end
  else if String.eqb method "project_close" then
    let! pm := attr project_manager in
    match pm with
    | Some pm =>
        let! p := attr project in
        let! success := invoke (CloseProject pm p) in
        (if success : bool then
           assign (with_project None) >>
           assign (with_media_pool None) >>
           assign (with_timeline None)
         else ret tt) >>
        ret (Result (PyBool success))
    | None => ret (Error "No project manager available")
    end
  else
    ret (Error ("Unknown project method: " ++ method)).
(** The loop of [timeline_delete] over the indices still to visit; running
    off the end of the loop reaches the final [return]. *)
Fixpoint timeline_delete_loop (p : handle) (name : string) (idxs : list Z)
    : M response :=
  match idxs with
  | [] => ret (Error ("Timeline '" ++ name ++ "' not found"))
  | i :: rest =>
      let! timeline := invoke (GetTimelineByIndex p i) in
      match timeline with
      | Some t =>
          let! n := invoke (GetName t) in
          if String.eqb n name then
            let! success := invoke (DeleteTimeline p t) in
            ret (Result (PyBool success))
          else timeline_delete_loop p name rest
      | None => timeline_delete_loop p name rest
      end
  end.

(** The loop of [timeline_set_current]. *)
Fixpoint timeline_set_current_loop (p : handle) (name : string)
    (idxs : list Z) : M response :=
  match idxs with
  | [] => ret (Error ("Timeline '" ++ name ++ "' not found"))
  | i :: rest =>
      let! timeline := invoke (GetTimelineByIndex p i) in
      match timeline with
      | Some t =>
          let! n := invoke (GetName t) in
          if String.eqb n name then
            let! success := invoke (SetCurrentTimeline p t) in
            (if success : bool then assign (with_timeline (Some t))
             else ret tt) >>
            ret (Result (PyBool success))
          else timeline_set_current_loop p name rest
      | None => timeline_set_current_loop p name rest
      end
  end.

Definition _handle_timeline_method (method : string) (args : arguments)
    : M response :=
  if String.eqb method "timeline_create" then
    let name := get args "name" in
    let failed := Error ("Failed to create timeline '" ++ name ++ "'") in
    let! mp := attr media_pool in
    match mp with
    | Some mp =>
        let! timeline := invoke (CreateEmptyTimeline mp name) in
        match timeline with
        | Some _ => ret (Result (PyStr ("Created timeline '" ++ name ++ "'")))
        | None => ret failed
        end
    | None => ret failed
    end
  else if String.eqb method "timeline_delete" then
    let name := get args "name" in
    let! p := attr project in
    match p with
    | Some p =>
        let! timeline_count := invoke (GetTimelineCount p) in
        timeline_delete_loop p name (range 1 (timeline_count + 1)%Z)
    | None => ret (Error ("Timeline '" ++ name ++ "' not found"))
    end
  else if String.eqb method "timeline_set_current" then
    let name := get args "name" in
    let! p := attr project in
    match p with
    | Some p =>
        let! timeline_count := invoke (GetTimelineCount p) in
        timeline_set_current_loop p name (range 1 (timeline_count + 1)%Z)
    | None => ret (Error ("Timeline '" ++ name ++ "' not found"))
    end
  else
    ret (Error ("Unknown timeline method: " ++ method)).

Definition _handle_media_method (method : string) (args : arguments)
    : M response :=
  if String.eqb method "media_import" then
    let file_path := get args "file_path" in
    let failed := Error ("Failed to import media: " ++ file_path) in
    let! mp := attr media_pool in
    match mp with
    | Some mp =>
        let! clips := invoke (ImportMedia mp [file_path]) in
        match clips with
        | _ :: _ => ret (Result (PyStr ("Imported media: " ++ file_path)))
        | [] => ret failed
        end
    | None => ret failed
    end
  else if String.eqb method "media_create_bin" then
    let name := get args "name" in
    let failed := Error ("Failed to create bin '" ++ name ++ "'") in
    let! mp := attr media_pool in
    match mp with
    | Some mp =>
        let! bin_item := invoke (CreateBin mp name) in
        match bin_item with
        | Some _ => ret (Result (PyStr ("Created bin '" ++ name ++ "'")))
        | None => ret failed
        end
    | None => ret failed
    end
  else
    ret (Error ("Unknown media method: " ++ method)).

Definition _handle_color_method (method : string) (args : arguments)
    : M response :=
  ret (Error ("Color method not implemented: " ++ method)).

Definition _handle_render_method (method : string) (args : arguments)
    : M response :=
  ret (Error ("Render method not implemented: " ++ method)).

(** The routing chain of [call_api]. *)
Definition call_api_route (method : string) (args : arguments) : M response :=
  if String.prefix "project_" method then
    _handle_project_method method args
  else if String.prefix "timeline_" method then
    _handle_timeline_method method args
  else if String.prefix "media_" method then
    _handle_media_method method args
  else if String.prefix "color_" method then
    _handle_color_method method args
  else if String.prefix "render_" method then
    _handle_render_method method args
  else
    _handle_general_method method args.

(** The body of the [try] block of [call_api]. *)
Definition call_api_try (method : string) (args : arguments) : M response :=
  if negb RESOLVE_AVAILABLE then
    ret (Error "DaVinci Resolve Python API not available")
  else
    let! r := attr resolve in
    match r with
    | None => ret (Error "DaVinci Resolve is not running")
    | Some _ =>
        _refresh_current_objects >>
        call_api_route method args
    end.

Definition call_api (method : string) (args : arguments) : M response :=
  try_except (call_api_try method args)
    (fun e => ret (ErrorTraceback ("API call failed: " ++ e) (format_exc e))).
End Bridge.

(** ** What the handlers are specified to do *)

(** The session context is consistent when the two references derived
    from the current project are absent whenever the project is. *)
Definition consistent (s : ResolveBridge) : Prop :=
  project s = None -> media_pool s = None /\ timeline s = None.

(** The state in which [__init__] starts assigning. *)
Definition blank : ResolveBridge := Bridge None None None None None.

(** The handler groups. *)
Inductive group : Type :=
| general_group
| project_group
| timeline_group
| media_group
| color_group
| render_group.

(** The methods the specification lists for exact matching. *)
Definition general_methods : list string :=
  ["is_running"; "get_current_project_name"; "get_timelines"; "switch_page"]%string.

(** The routing rules in the words of the specification, in its order:
    exact match against the general methods, then the five prefixes. *)
Definition rules : list (group * (string -> bool)) :=
  [ (general_group, fun method => existsb (String.eqb method) general_methods);
    (project_group, String.prefix "project_");
    (timeline_group, String.prefix "timeline_");
    (media_group, String.prefix "media_");
    (color_group, String.prefix "color_");
    (render_group, String.prefix "render_") ].

(** The groups whose rule a method matches. *)
Definition matching (method : string) : list group :=
  map fst (List.filter (fun rule => snd rule method) rules).

(** The handler of each group in the bridge. *)
Definition handler_of {World : Type}
    (ext : World -> forall c : call, (exn + reply c) * World) (g : group)
    : string -> arguments -> M World response :=
  match g with
  | general_group => _handle_general_method ext
  | project_group => _handle_project_method ext
  | timeline_group => _handle_timeline_method ext
  | media_group => _handle_media_method ext
  | color_group => _handle_color_method
  | render_group => _handle_render_method
  end.

(** The first timeline named [name] in a listing: an entry is the timeline
    at an index, with its name, or [None] where the application has no
    timeline at that index.  The comparison is exact. *)
Fixpoint first_named (name : string) (tls : list (option (handle * string)))
    : option handle :=
  match tls with
  | [] => None
  | Some (t, n) :: rest =>
      if String.eqb n name then Some t else first_named name rest
  | None :: rest => first_named name rest
  end.

(** The names of the timelines of a listing, by index. *)
Fixpoint names_of (tls : list (option (handle * string))) : list string :=
  match tls with
  | [] => []
  | Some (_, n) :: rest => n :: names_of rest
  | None :: rest => names_of rest
  end.

(** The methods whose handler assigns an attribute of [self]. *)
Definition assigning_methods : list string :=
  ["project_create"; "project_open"; "project_close";
   "timeline_set_current"]%string.

(** The calls of a run that ask the application to change something. *)
Definition mutations {World A : Type} (o : outcome World A) : list call :=
  List.filter mutating (trace o).

(** A run keeps the two handles obtained at start-up, the application and
    its project manager, and asks for at most one change. *)
Definition keeps_handles {World A : Type} (s : ResolveBridge)
    (o : outcome World A) : Prop :=
  resolve (self o) = resolve s /\
  project_manager (self o) = project_manager s /\
  (length (mutations o) <= 1)%nat.

(** A run assigns no attribute and asks for at most one change. *)
Definition keeps_context {World A : Type} (s : ResolveBridge)
    (o : outcome World A) : Prop :=
  self o = s /\ (length (mutations o) <= 1)%nat.

Section Specifications.
Context {World : Type}.
Variable ext : World -> forall c : call, (exn + reply c) * World.

(** In world [w] the application answers the accessors for the indices
    [k], [k+1], ... of project [p] with the entries of [tls], raising
    nothing and staying as it is. *)
Definition lists_from (w : World) (p : handle) (k : Z)
    (tls : list (option (handle * string))) : Prop :=
  forall (i : nat) entry, nth_error tls i = Some entry ->
    ext w (GetTimelineByIndex p (k + Z.of_nat i)) =
      (inr (option_map fst entry), w) /\
    forall t n, entry = Some (t, n) -> ext w (GetName t) = (inr n, w).

(** In world [w] the timelines of project [p] are [tls], at the indices 1
    to [length tls]. *)
Definition lists_timelines (w : World) (p : handle)
    (tls : list (option (handle * string))) : Prop :=
  ext w (GetTimelineCount p) = (inr (Z.of_nat (length tls)), w) /\
  lists_from w p 1 tls.

(** What [timeline_delete] does on a listing: the outcome [o] of a run
    from [s] and [w] deletes the first timeline named [name] and nothing
    else, or deletes nothing when there is none. *)
Definition deletes_first (p : handle) (name : string)
    (tls : list (option (handle * string))) (s : ResolveBridge) (w : World)
    (o : outcome World response) : Prop :=
  self o = s /\
  match first_named name tls with
  | None =>
      value o = inr (Error ("Timeline '" ++ name ++ "' not found")) /\
      world o = w /\
      List.filter mutating (trace o) = []
  | Some t =>
      value o = match fst (ext w (DeleteTimeline p t)) with
                | inl e => inl e
                | inr success => inr (Result (PyBool success))
                end /\
      world o = snd (ext w (DeleteTimeline p t)) /\
      List.filter mutating (trace o) = [DeleteTimeline p t]
  end.

(** What [timeline_set_current] does on a listing: the outcome [o] of a
    run from [s] and [w] asks the application to make the first timeline
    named [name] current, and stores that timeline when and only when the
    application answers [True]. *)
Definition sets_first_current (p : handle) (name : string)
    (tls : list (option (handle * string))) (s : ResolveBridge) (w : World)
    (o : outcome World response) : Prop :=
  match first_named name tls with
  | None =>
      value o = inr (Error ("Timeline '" ++ name ++ "' not found")) /\
      self o = s /\ world o = w
  | Some t =>
      world o = snd (ext w (SetCurrentTimeline p t)) /\
      match fst (ext w (SetCurrentTimeline p t)) with
      | inr true =>
          value o = inr (Result (PyBool true)) /\
          self o = with_timeline (Some t) s
      | inr false => value o = inr (Result (PyBool false)) /\ self o = s
      | inl e => value o = inl e /\ self o = s
      end
  end.

(** The session context after a run is the one before it, unless the run
    reports [True], and then only the current timeline was replaced. *)
Definition updates_on_success_only (s : ResolveBridge)
    (o : outcome World response) : Prop :=
  self o = s \/
  exists t, self o = with_timeline (Some t) s /\
            value o = inr (Result (PyBool true)).

(** What [project_create] and [project_open] do once the application was
    asked for the project with the scripting call [c] and gave the answer
    [r], leaving the world [w1]. *)
Definition adopt_project (c : call) (r : exn + option handle) (w1 : World)
    (failed created : string) (s : ResolveBridge) : outcome World response :=
  match r with
  | inl e => Out (inl e) s w1 [c]
  | inr None => Out (inr (Error failed)) s w1 [c]
  | inr (Some p) =>
      match ext w1 (GetMediaPool p) with
      | (inl e, w2) =>
          Out (inl e) (with_project (Some p) s) w2 [c; GetMediaPool p]
      | (inr mp, w2) =>
          Out (inr (Result (PyStr created)))
            (with_media_pool mp (with_project (Some p) s)) w2
            [c; GetMediaPool p]
      end
  end.

(** What the loop of [get_timelines] does on a listing: it adds the names
    of the listing to the names collected before, and changes nothing. *)
Definition collects_names (tls : list (option (handle * string)))
    (timelines : list string) (w : World)
    (o : outcome World (list string)) : Prop :=
  value o = inr (timelines ++ names_of tls) /\ world o = w /\
  List.filter mutating (trace o) = [].
End Specifications.

(** ** A small host application

    A concrete [World] to run the bridge on: an application with at most
    one open project.  The application object is reference 1, its project
    manager 2 and the media pool of the open project 3; projects,
    timelines, clips and bins get fresh references. *)
Module Sim.

Record app : Type := App {
  current : option handle;            (* the open project *)
  title : string;                     (* its name *)
  timelines : list (handle * string); (* its timelines, by index *)
  fresh : handle;                     (* the next unused reference *)
  broken : bool                       (* every scripting call raises *)
}.

Fixpoint name_of (obj : handle) (tls : list (handle * string)) : option string :=
  match tls with
  | [] => None
  | (t, n) :: rest => if Nat.eqb t obj then Some n else name_of obj rest
  end.

Fixpoint remove_timeline (obj : handle) (tls : list (handle * string))
    : list (handle * string) :=
  match tls with
  | [] => []
  | (t, n) :: rest =>
      if Nat.eqb t obj then rest else (t, n) :: remove_timeline obj rest
  end.

Definition timeline_at (i : Z) (tls : list (handle * string)) : option handle :=
  if (1 <=? i)%Z then option_map fst (nth_error tls (Z.to_nat (i - 1)))
  else None.

Definition answer (w : app) (c : call) : reply c * app :=
  match c as c0 return reply c0 * app with
  | scriptapp => (Some 1, w)
  | GetProjectManager _ => (Some 2, w)
  | OpenPage _ _ => (true, w)
  | GetCurrentProject _ => (current w, w)
  | CreateProject _ name | LoadProject _ name =>
      (Some (fresh w), App (Some (fresh w)) name [] (S (fresh w)) (broken w))
  | SaveProject _ => (true, w)
  | CloseProject _ _ =>
      (true, App None EmptyString [] (fresh w) (broken w))
  | GetMediaPool _ => (Some 3, w)
  | GetCurrentTimeline _ => (option_map fst (head (timelines w)), w)
  | GetName obj => (default (title w) (name_of obj (timelines w)), w)
  | GetTimelineCount _ => (Z.of_nat (length (timelines w)), w)
  | GetTimelineByIndex _ i => (timeline_at i (timelines w), w)
  | DeleteTimeline _ t =>
      (true, App (current w) (title w) (remove_timeline t (timelines w))
               (fresh w) (broken w))
  | SetCurrentTimeline _ _ => (true, w)
  | CreateEmptyTimeline _ name =>
      (Some (fresh w),
       App (current w) (title w) (timelines w ++ [(fresh w, name)])
         (S (fresh w)) (broken w))
  | ImportMedia _ _ => ([fresh w], App (current w) (title w) (timelines w)
                                    (S (fresh w)) (broken w))
  | CreateBin _ _ => (Some (fresh w), App (current w) (title w) (timelines w)
                                       (S (fresh w)) (broken w))
  | print _ => (tt, w)
  end.

Definition ext (w : app) (c : call) : (exn + reply c) * app :=
  if broken w then
    match c as c0 return (exn + reply c0) * app with
    | print _ => (inr tt, w)
    | _ => (inl "connection lost"%string, w)
    end
  else let (r, w') := answer w c in (inr r, w').

Definition format_exc (e : exn) : string :=
  ("Traceback (most recent call last): " ++ e)%string.

(** A project named Film with three timelines, two of them named Cut. *)
Definition film : app :=
  App (Some 5) "Film"
    [(10, "Cut"%string); (11, "Trailer"%string); (12, "Cut"%string)]
    20 false.

(** The same application after the project was closed by hand. *)
Definition closed : app := App None EmptyString [] 20 false.

(** The same application, not answering any more. *)
Definition hung : app :=
  App (Some 5) "Film"
    [(10, "Cut"%string); (11, "Trailer"%string); (12, "Cut"%string)]
    20 true.

(** The bridge as [__init__] leaves it when started on [film]. *)
Definition started : ResolveBridge :=
  Bridge (Some 1) (Some 2) (Some 5) (Some 3) (Some 10).

(** The timelines of Film, as the small application lists them. *)
Definition film_timelines : list (option (handle * string)) :=
  [Some (10, "Cut"%string); Some (11, "Trailer"%string); Some (12, "Cut"%string)].

End Sim.


(** The small application with a media pool that cannot be reached:
    [GetMediaPool] raises, every other call is answered as before. *)
Definition ext_without_pool (w : Sim.app) (c : call)
    : (exn + reply c) * Sim.app :=
  match c as c0 return (exn + reply c0) * Sim.app with
  | GetMediaPool _ => (inl "media pool unavailable"%string, w)
  | c0 => Sim.ext w c0
  end.

(** The methods each handler group knows. *)
Definition project_methods : list string :=
  ["project_create"; "project_open"; "project_save"; "project_close"]%string.
Definition timeline_methods : list string :=
  ["timeline_create"; "timeline_delete"; "timeline_set_current"]%string.
Definition media_methods : list string :=
  ["media_import"; "media_create_bin"]%string.

(** * Properties *)

Ltac run_monad :=
  unfold bind, try_except, attr, assign, ret, raise, invoke in *; simpl in *.

(** Case analysis on the answer of the next scripting call. *)
Ltac ask ext :=
  match goal with
  | |- context [ext ?w ?c] =>
      let E := fresh "Eext" in
      destruct (ext w c) as [[?e | ?v] ?w] eqn:E; simpl in *
  end.

Section Refresh.
Context {World : Type}.
Variable ext : World -> forall c : call, (exn + reply c) * World.

(** The refresh swallows every exception. *)
Lemma refresh_returns (s : ResolveBridge) (w : World) :
  value (_refresh_current_objects ext s w) = inr tt.
Proof.
  unfold _refresh_current_objects, _refresh_current_objects_try.
  run_monad.
  destruct (project_manager s) as [pm |]; simpl; [| reflexivity].
  ask ext; [reflexivity |].
  destruct v as [p |]; simpl; [| reflexivity].
  ask ext; [reflexivity |].
  ask ext; reflexivity.
Qed.

(** The refresh never touches the application handle or the project
    manager. *)
Lemma refresh_frame (s : ResolveBridge) (w : World) :
  resolve (self (_refresh_current_objects ext s w)) = resolve s /\
  project_manager (self (_refresh_current_objects ext s w)) = project_manager s.
Proof.
  unfold _refresh_current_objects, _refresh_current_objects_try.
  run_monad.
  destruct (project_manager s) as [pm |] eqn:Epm; simpl; [| auto].
  ask ext; [auto |].
  destruct v as [p |]; simpl; [| auto].
  ask ext; [auto |].
  ask ext; auto.
Qed.

(** What the refresh does when the application reports no current
    project: the project reference is dropped, the two derived references
    stay as they were. *)
Lemma refresh_without_project (s : ResolveBridge) (w w' : World) (pm : handle) :
  project_manager s = Some pm ->
  ext w (GetCurrentProject pm) = (inr None, w') ->
  self (_refresh_current_objects ext s w) = with_project None s.
Proof.
  intros Hpm Hcur.
  unfold _refresh_current_objects, _refresh_current_objects_try.
  run_monad. rewrite Hpm. simpl. rewrite Hcur. reflexivity.
Qed.

(** Refreshing twice against the same world is refreshing once. *)
Lemma refresh_idempotent (s : ResolveBridge) (w : World) :
  _refresh_current_objects ext (self (_refresh_current_objects ext s w)) w
  = _refresh_current_objects ext s w.
Proof.
  unfold _refresh_current_objects, _refresh_current_objects_try.
  run_monad.
  destruct (project_manager s) as [pm |] eqn:Epm; simpl.
  2: { rewrite Epm. reflexivity. }
  destruct (ext w (GetCurrentProject pm)) as [[e | [p |]] w1] eqn:E1; simpl;
    rewrite ?Epm; simpl; rewrite ?E1; simpl; try reflexivity.
  destruct (ext w1 (GetMediaPool p)) as [[e | mp] w2] eqn:E2; simpl;
    rewrite ?Epm; simpl; rewrite ?E1; simpl; rewrite ?E2; simpl;
    try reflexivity.
  destruct (ext w2 (GetCurrentTimeline p)) as [[e | t] w3] eqn:E3; simpl;
    rewrite ?Epm; simpl; rewrite ?E1; simpl; rewrite ?E2; simpl;
    rewrite ?E3; simpl; reflexivity.
Qed.
End Refresh.

Section CallApi.
Context {World : Type}.
Variable ext : World -> forall c : call, (exn + reply c) * World.
Variable RESOLVE_AVAILABLE : bool.
Variable format_exc : exn -> string.

(** Past the two availability guards, [call_api] is the refresh followed
    by the routing chain. *)
Lemma call_api_try_dispatch (method : string) (args : arguments)
    (s : ResolveBridge) (w : World) (r : handle) :
  RESOLVE_AVAILABLE = true ->
  resolve s = Some r ->
  call_api_try ext RESOLVE_AVAILABLE method args s w =
  let R := _refresh_current_objects ext s w in
  let H := call_api_route ext method args (self R) (world R) in
  Out (value H) (self H) (world H) (trace R ++ trace H).
Proof.
  intros Ha Hr. unfold call_api_try.
  rewrite Ha. simpl.
  unfold bind at 1. unfold attr at 1. rewrite Hr.
  unfold bind at 1.
  pose proof (refresh_returns ext s w) as Hv.
  destruct (_refresh_current_objects ext s w) as [v s1 w1 t1].
  simpl in *. subst v.
  destruct (call_api_route ext method args s1 w1); reflexivity.
Qed.

(** Before the guards are passed nothing is asked of the application. *)
Lemma call_api_try_guarded (method : string) (args : arguments)
    (s : ResolveBridge) (w : World) :
  RESOLVE_AVAILABLE = false \/ resolve s = None ->
  call_api_try ext RESOLVE_AVAILABLE method args s w =
  Out (inr (Error (if RESOLVE_AVAILABLE
                   then "DaVinci Resolve is not running"
                   else "DaVinci Resolve Python API not available")))
    s w [].
Proof.
  unfold call_api_try.
  intros [Ha | Hr].
  - rewrite Ha. reflexivity.
  - destruct RESOLVE_AVAILABLE; simpl; [| reflexivity].
    unfold bind, attr. rewrite Hr. reflexivity.
Qed.

(** [call_api] returns what its [try] block returns, and turns what the
    block raises into an error dictionary. *)
Lemma call_api_catches (method : string) (args : arguments)
    (s : ResolveBridge) (w : World) :
  let T := call_api_try ext RESOLVE_AVAILABLE method args s w in
  call_api ext RESOLVE_AVAILABLE format_exc method args s w =
  Out (inr (match value T with
            | inr r => r
            | inl e => ErrorTraceback ("API call failed: " ++ e) (format_exc e)
            end))
    (self T) (world T)
    (match value T with inr _ => trace T | inl _ => trace T ++ [] end).
Proof.
  unfold call_api, try_except. simpl.
  destruct (call_api_try ext RESOLVE_AVAILABLE method args s w) as [[e | r] s1 w1 t1]; reflexivity.
Qed.
End CallApi.

Section Totality.
Context {World : Type}.
Variable ext : World -> forall c : call, (exn + reply c) * World.
Variable RESOLVE_AVAILABLE : bool.
Variable format_exc : exn -> string.

(** [call_api] always returns a dictionary. *)
Lemma call_api_returns (method : string) (args : arguments)
    (s : ResolveBridge) (w : World) :
  exists r,
    value (call_api ext RESOLVE_AVAILABLE format_exc method args s w) = inr r.
Proof.
  rewrite call_api_catches. simpl. eauto.
Qed.

(** C3, as the code has it.  [call_api] is total: an exception the
    application raises during the refresh is caught inside the refresh and
    discarded, so the refresh always returns and the call goes on with the
    context as the refresh left it; an exception raised while the routed
    handler runs is caught by [call_api] and turned into an error
    dictionary whose message carries the description of the exception; and
    in every state and world, hence also after a failed call, [call_api]
    returns a dictionary and raises nothing. *)
Theorem call_api_total (method : string) (args : arguments)
    (s : ResolveBridge) (w : World) :
  let R := _refresh_current_objects ext s w in
  let o := call_api ext RESOLVE_AVAILABLE format_exc method args s w in
  value R = inr tt /\
  (exists r, value o = inr r) /\
  (forall e,
     RESOLVE_AVAILABLE = true -> resolve s <> None ->
     value (call_api_route ext method args (self R) (world R)) = inl e ->
     value o = inr (ErrorTraceback ("API call failed: " ++ e) (format_exc e))) /\
  (forall e,
     value (call_api_try ext RESOLVE_AVAILABLE method args s w) = inl e ->
     value o = inr (ErrorTraceback ("API call failed: " ++ e) (format_exc e))).
Proof.
  simpl. split; [apply refresh_returns |].
  split; [apply call_api_returns |].
  split.
  - intros e Ha Hr He.
    destruct (resolve s) as [r |] eqn:Er; [| congruence].
    rewrite call_api_catches. simpl.
    rewrite (call_api_try_dispatch ext _ method args s w r Ha Er). simpl.
    rewrite He. reflexivity.
  - intros e He. rewrite call_api_catches. simpl. rewrite He. reflexivity.
Qed.

(** C10, as the code has it.  Through [call_api], [is_running] never
    answers with the result [False]: when the application handle is absent
    the call ends at a guard, before the refresh and before any handler,
    with the error "DaVinci Resolve Python API not available" if the
    scripting module could not be imported and "DaVinci Resolve is not
    running" otherwise; and every result the call does return is [True]. *)
Theorem is_running_never_false (args : arguments) (s : ResolveBridge) (w : World) :
  let o := call_api ext RESOLVE_AVAILABLE format_exc "is_running" args s w in
  (resolve s = None ->
   o = Out (inr (Error (if RESOLVE_AVAILABLE
                        then "DaVinci Resolve is not running"
                        else "DaVinci Resolve Python API not available")))
         s w []) /\
  (forall v, value o = inr (Result v) -> v = PyBool true).
Proof.
  simpl. split.
  - intros Hr. rewrite call_api_catches.
    rewrite call_api_try_guarded by auto. reflexivity.
  - intros v. rewrite call_api_catches. simpl.
    destruct RESOLVE_AVAILABLE eqn:Ha.
    + destruct (resolve s) as [r |] eqn:Er.
      * rewrite (call_api_try_dispatch ext _ _ args s w r eq_refl Er). simpl.
        destruct (refresh_frame ext s w) as [Hres _].
        unfold call_api_route, _handle_general_method. simpl.
        run_monad. rewrite Hres, Er. congruence.
      * rewrite call_api_try_guarded by auto. simpl. congruence.
    + rewrite call_api_try_guarded by auto. simpl. congruence.
Qed.
End Totality.

(** ** Routing *)

Ltac split_tests m :=
  repeat match goal with
    | |- context [String.prefix ?p m] => destruct (String.prefix p m)
    | |- context [String.eqb m ?x] => destruct (String.eqb m x)
    end.

(** No method matches two rules. *)
Lemma rules_exclusive (method : string) : (length (matching method) <= 1)%nat.
Proof.
  unfold matching, rules, general_methods.
  destruct method as [| [[] [] [] [] [] [] [] []] m']; cbn;
    split_tests m'; cbn; lia.
Qed.

Section Routing.
Context {World : Type}.
Variable ext : World -> forall c : call, (exn + reply c) * World.

(** The last branch of [_handle_general_method]. *)
Lemma general_unknown (method : string) (args : arguments) :
  existsb (String.eqb method) general_methods = false ->
  _handle_general_method ext method args =
  ret (Error ("Unknown general method: " ++ method)).
Proof.
  unfold general_methods. simpl. intros H.
  repeat (apply orb_false_elim in H; destruct H as [? H]).
  unfold _handle_general_method.
  repeat match goal with E : String.eqb _ _ = false |- _ => rewrite E; clear E end.
  reflexivity.
Qed.

(** The routing chain of the code picks the handler of the one rule the
    method matches, and the unknown-method answer when it matches none. *)
Lemma route_by_rules (method : string) (args : arguments) :
  match matching method with
  | [] => call_api_route ext method args =
          ret (Error ("Unknown general method: " ++ method))
  | [g] => call_api_route ext method args = handler_of ext g method args
  | _ :: _ :: _ => False
  end.
Proof.
  pose proof (general_unknown method args) as HG.
  unfold call_api_route, matching, rules, handler_of.
  revert HG. unfold general_methods.
  generalize (_handle_general_method ext) (_handle_project_method ext)
    (_handle_timeline_method ext) (_handle_media_method ext)
    (@_handle_color_method World) (@_handle_render_method World)
    (@ret World response (Error ("Unknown general method: " ++ method))).
  intros hg hp ht hm hc hr unknown.
  destruct method as [| [[] [] [] [] [] [] [] []] m']; cbn;
    split_tests m'; cbn; intros HG; try reflexivity; apply HG; reflexivity.
Qed.
End Routing.

Section GeneralMethods.
Context {World : Type}.
Variable ext : World -> forall c : call, (exn + reply c) * World.

(** What the routing chain does with each of the four general methods. *)
Lemma general_methods_answered (args : arguments) (s : ResolveBridge)
    (w : World) :
  call_api_route ext "is_running" args s w =
    Out (inr (Result (PyBool match resolve s with
                             | Some _ => true
                             | None => false
                             end))) s w [] /\
  call_api_route ext "get_current_project_name" args s w =
    match project s with
    | None => Out (inr (Result PyNone)) s w []
    | Some p =>
        match ext w (GetName p) with
        | (inl e, w1) => Out (inl e) s w1 [GetName p]
        | (inr n, w1) => Out (inr (Result (PyStr n))) s w1 [GetName p]
        end
    end /\
  match project s with
  | None =>
      call_api_route ext "get_timelines" args s w =
        Out (inr (Result (PyList []))) s w []
  | Some p =>
      (exists rest,
         trace (call_api_route ext "get_timelines" args s w) =
           GetTimelineCount p :: rest) /\
      (forall r,
         value (call_api_route ext "get_timelines" args s w) = inr r ->
         exists names, r = Result (PyList names))
  end /\
  call_api_route ext "switch_page" args s w =
    match resolve s with
    | None => Out (inl (AttributeError "OpenPage")) s w []
    | Some r =>
        match ext w (OpenPage r (get args "page")) with
        | (inl e, w1) => Out (inl e) s w1 [OpenPage r (get args "page")]
        | (inr success, w1) =>
            Out (inr (Result (PyBool success))) s w1
              [OpenPage r (get args "page")]
        end
    end.
Proof.
  change (call_api_route ext "is_running" args)
    with (_handle_general_method ext "is_running" args).
  change (call_api_route ext "get_current_project_name" args)
    with (_handle_general_method ext "get_current_project_name" args).
  change (call_api_route ext "get_timelines" args)
    with (_handle_general_method ext "get_timelines" args).
  change (call_api_route ext "switch_page" args)
    with (_handle_general_method ext "switch_page" args).
  unfold _handle_general_method. cbn [String.eqb Ascii.eqb Bool.eqb].
  split; [reflexivity |]. split; [| split].
  - unfold bind, attr, invoke, ret.
    destruct (project s) as [p |]; [| reflexivity].
    destruct (ext w (GetName p)) as [[e | n] w1]; reflexivity.
  - assert (Hrun :
      (let! p := attr project in
       match p with
       | Some p0 =>
           let! timeline_count := invoke ext (GetTimelineCount p0) in
           let! timelines :=
             get_timelines_loop ext p0 (range 1 (timeline_count + 1)) [] in
           ret (Result (PyList timelines))
       | None => ret (Result (PyList []))
       end) s w =
      match project s with
      | None => Out (inr (Result (PyList []))) s w []
      | Some p =>
          match ext w (GetTimelineCount p) with
          | (inl e, w1) => Out (inl e) s w1 [GetTimelineCount p]
          | (inr n, w1) =>
              match get_timelines_loop ext p (range 1 (n + 1)) [] s w1 with
              | Out (inl e) s2 w2 t2 =>
                  Out (inl e) s2 w2 (GetTimelineCount p :: t2)
              | Out (inr l) s2 w2 t2 =>
                  Out (inr (Result (PyList l))) s2 w2
                    (GetTimelineCount p :: t2 ++ [])
              end
          end
      end).
    { unfold bind, attr, invoke, ret.
      destruct (project s) as [p |]; [| reflexivity].
      destruct (ext w (GetTimelineCount p)) as [[e | n] w1]; [reflexivity |].
      cbn [reply].
      destruct (get_timelines_loop ext p (range 1 (n + 1)) [] s w1)
        as [[e | l] s1 w2 t2]; reflexivity. }
    rewrite Hrun. clear Hrun.
    destruct (project s) as [p |]; [| reflexivity].
    destruct (ext w (GetTimelineCount p)) as [[e | n] w1].
    + split; [eexists; reflexivity | discriminate].
    + destruct (get_timelines_loop ext p (range 1 (n + 1)) [] s w1)
        as [[e | l] s1 w2 t2]; simpl.
      * split; [eexists; reflexivity | discriminate].
      * split; [eexists; reflexivity |].
        intros r [= <-]. eexists; reflexivity.
  - unfold bind, attr, invoke, ret, raise.
    destruct (resolve s) as [r |]; [| reflexivity].
    destruct (ext w (OpenPage r (get args "page"))) as [[e | b] w1];
      reflexivity.
Qed.

(** A general method is never answered with an error dictionary by the
    routing chain: it returns a result or raises. *)
Lemma general_methods_recognised (method : string) (args : arguments)
    (s : ResolveBridge) (w : World) (r : response) :
  existsb (String.eqb method) general_methods = true ->
  value (call_api_route ext method args s w) = inr r ->
  is_error r = false.
Proof.
  unfold general_methods. simpl. intros H.
  destruct (general_methods_answered args s w) as [H1 [H2 [H3 H4]]].
  repeat (apply orb_true_iff in H; destruct H as [H | H]);
    try discriminate; apply String.eqb_eq in H; subst method.
  - rewrite H1. intros [= <-]. reflexivity.
  - rewrite H2. destruct (project s) as [p |].
    + destruct (ext w (GetName p)) as [[e | n] w1];
        [discriminate | intros [= <-]; reflexivity].
    + intros [= <-]. reflexivity.
  - destruct (project s) as [p |].
    + destruct H3 as [_ H3]. intros Hv.
      destruct (H3 r Hv) as [names ->]. reflexivity.
    + rewrite H3. intros [= <-]. reflexivity.
  - rewrite H4. destruct (resolve s) as [r0 |]; [| discriminate].
    destruct (ext w (OpenPage r0 (get args "page"))) as [[e | b] w1];
      [discriminate | intros [= <-]; reflexivity].
Qed.
End GeneralMethods.

(** C4.  Every method string matches at most one routing rule (exact match
    against the general methods, or one of the prefixes [project_],
    [timeline_], [media_], [color_], [render_]), so the order of the rules
    is immaterial; the routing chain of [call_api] runs the handler of the
    group of that rule; each of the four general methods is answered by
    its own branch ([is_running] with the presence of the application
    handle, [get_current_project_name] through [GetName],
    [get_timelines] through [GetTimelineCount], [switch_page] through
    [OpenPage]) and never with an error dictionary; a method that
    matches no rule gets the unknown-method error; and [call_api] returns
    a dictionary in every case, raising nothing. *)
Theorem routing_selects_one_group {World : Type}
    (ext : World -> forall c : call, (exn + reply c) * World)
    (RESOLVE_AVAILABLE : bool) (format_exc : exn -> string)
    (method : string) (args : arguments) (s : ResolveBridge) (w : World) :
  (length (matching method) <= 1)%nat /\
  (forall g, matching method = [g] ->
     call_api_route ext method args = handler_of ext g method args) /\
  (matching method = [] ->
     call_api_route ext method args =
       ret (Error ("Unknown general method: " ++ method)) /\
     (RESOLVE_AVAILABLE = true -> resolve s <> None ->
      value (call_api ext RESOLVE_AVAILABLE format_exc method args s w) =
        inr (Error ("Unknown general method: " ++ method)))) /\
  (exists r,
     value (call_api ext RESOLVE_AVAILABLE format_exc method args s w) = inr r) /\
  (existsb (String.eqb method) general_methods = true ->
   matching method = [general_group] /\
   forall r, value (call_api_route ext method args s w) = inr r ->
             is_error r = false) /\
  call_api_route ext "is_running" args s w =
    Out (inr (Result (PyBool match resolve s with
                             | Some _ => true
                             | None => false
                             end))) s w [] /\
  call_api_route ext "get_current_project_name" args s w =
    match project s with
    | None => Out (inr (Result PyNone)) s w []
    | Some p =>
        match ext w (GetName p) with
        | (inl e, w1) => Out (inl e) s w1 [GetName p]
        | (inr n, w1) => Out (inr (Result (PyStr n))) s w1 [GetName p]
        end
    end /\
  match project s with
  | None =>
      call_api_route ext "get_timelines" args s w =
        Out (inr (Result (PyList []))) s w []
  | Some p =>
      (exists rest,
         trace (call_api_route ext "get_timelines" args s w) =
           GetTimelineCount p :: rest) /\
      (forall r,
         value (call_api_route ext "get_timelines" args s w) = inr r ->
         exists names, r = Result (PyList names))
  end /\
  call_api_route ext "switch_page" args s w =
    match resolve s with
    | None => Out (inl (AttributeError "OpenPage")) s w []
    | Some r =>
        match ext w (OpenPage r (get args "page")) with
        | (inl e, w1) => Out (inl e) s w1 [OpenPage r (get args "page")]
        | (inr success, w1) =>
            Out (inr (Result (PyBool success))) s w1
              [OpenPage r (get args "page")]
        end
    end.
Proof.
  pose proof (route_by_rules ext method args) as Hroute.
  split; [apply rules_exclusive |].
  split; [| split; [| split; [| split]]].
  - intros g Hg. rewrite Hg in Hroute. exact Hroute.
  - intros Hnone. rewrite Hnone in Hroute. split; [exact Hroute |].
    intros Ha Hr. destruct (resolve s) as [r |] eqn:Er; [| congruence].
    rewrite call_api_catches. simpl.
    rewrite (call_api_try_dispatch ext _ method args s w r Ha Er). simpl.
    rewrite Hroute. reflexivity.
  - apply call_api_returns.
  - intros Hg. split.
    + unfold general_methods in Hg. simpl in Hg.
      repeat (apply orb_true_iff in Hg; destruct Hg as [Hg | Hg]);
        try discriminate; apply String.eqb_eq in Hg; subst method;
        reflexivity.
    + intros r. apply general_methods_recognised. exact Hg.
  - apply general_methods_answered.
Qed.

(** ** Scanning the timelines of a project *)

Lemma seqZ_S (k : Z) (n : nat) :
  seqZ k (Z.of_nat (S n)) = k :: seqZ (k + 1) (Z.of_nat n).
Proof.
  rewrite seqZ_cons by lia. f_equal. f_equal; lia.
Qed.

(** [range(1, n + 1)] is 1, 2, ..., n. *)
Lemma range_one_based (n : nat) :
  range 1 (Z.of_nat n + 1) = map (fun i => Z.of_nat (S i)) (seq 0 n).
Proof.
  unfold range, seqZ.
  replace (Z.of_nat n + 1 - 1)%Z with (Z.of_nat n) by lia.
  rewrite Nat2Z.id. apply map_ext. intros i. lia.
Qed.

(** [first_named] picks the entry of least index with that name. *)
Lemma first_named_least (name : string) (tls : list (option (handle * string)))
    (t : handle) :
  first_named name tls = Some t <->
  exists i, nth_error tls i = Some (Some (t, name)) /\
    forall j t' n', (j < i)%nat -> nth_error tls j = Some (Some (t', n')) ->
      n' <> name.
Proof.
  revert t. induction tls as [| [[t0 n0] |] rest IH]; intros t; simpl.
  - split; [discriminate |]. intros [[| i] [H _]]; discriminate.
  - destruct (String.eqb n0 name) eqn:E.
    + apply String.eqb_eq in E. subst n0. split.
      * intros [= ->]. exists 0%nat. split; [reflexivity | intros; lia].
      * intros [[| i] [H Hmin]]; simpl in H; [congruence |].
        exfalso. apply (Hmin 0%nat t0 name); [lia | reflexivity | reflexivity].
    + apply String.eqb_neq in E. rewrite IH. split.
      * intros [i [H Hmin]]. exists (S i). split; [exact H |].
        intros [| j] t' n' Hj Hn; simpl in Hn; [congruence |].
        apply (Hmin j t' n'); [lia | exact Hn].
      * intros [[| i] [H Hmin]]; simpl in H; [congruence |].
        exists i. split; [exact H |].
        intros j t' n' Hj Hn. apply (Hmin (S j) t' n'); [lia | exact Hn].
  - rewrite IH. split.
    + intros [i [H Hmin]]. exists (S i). split; [exact H |].
      intros [| j] t' n' Hj Hn; simpl in Hn; [congruence |].
      apply (Hmin j t' n'); [lia | exact Hn].
    + intros [[| i] [H Hmin]]; simpl in H; [congruence |].
      exists i. split; [exact H |].
      intros j t' n' Hj Hn. apply (Hmin (S j) t' n'); [lia | exact Hn].
Qed.

Section Timelines.
Context {World : Type}.
Variable ext : World -> forall c : call, (exn + reply c) * World.

Lemma lists_from_tail (w : World) (p : handle) (k : Z) entry
    (tls : list (option (handle * string))) :
  lists_from ext w p k (entry :: tls) -> lists_from ext w p (k + 1) tls.
Proof.
  intros H i e Hi. specialize (H (S i) e Hi).
  replace (k + 1 + Z.of_nat i)%Z with (k + Z.of_nat (S i))%Z by lia.
  exact H.
Qed.

Lemma lists_from_head (w : World) (p : handle) (k : Z) entry
    (tls : list (option (handle * string))) :
  lists_from ext w p k (entry :: tls) ->
  ext w (GetTimelineByIndex p k) = (inr (option_map fst entry), w) /\
  forall t n, entry = Some (t, n) -> ext w (GetName t) = (inr n, w).
Proof.
  intros H. specialize (H 0%nat entry eq_refl).
  replace (k + Z.of_nat 0)%Z with k in H by lia. exact H.
Qed.

(** The loop of [timeline_delete] over a listing. *)
Lemma timeline_delete_loop_spec (p : handle) (name : string)
    (tls : list (option (handle * string))) :
  forall (k : Z) (s : ResolveBridge) (w : World),
  lists_from ext w p k tls ->
  deletes_first ext p name tls s w
    (timeline_delete_loop ext p name (seqZ k (Z.of_nat (length tls))) s w).
Proof.
  induction tls as [| entry rest IH]; intros k s w Hl.
  - unfold deletes_first. simpl. auto.
  - destruct (lists_from_head _ _ _ _ _ Hl) as [Hidx Hname].
    specialize (IH (k + 1)%Z s w (lists_from_tail _ _ _ _ _ Hl)).
    cbn [length]. rewrite seqZ_S. cbn [timeline_delete_loop].
    unfold bind at 1. unfold invoke at 1. rewrite Hidx.
    destruct entry as [[t n] |]; cbn [option_map fst].
    + unfold bind at 1. unfold invoke at 1. rewrite (Hname t n eq_refl).
      unfold deletes_first in *. cbn [first_named].
      destruct (String.eqb n name).
      * unfold bind, invoke, ret.
        destruct (ext w (DeleteTimeline p t)) as [[e | b] w']; simpl; auto.
      * destruct (timeline_delete_loop ext p name
                    (seqZ (k + 1) (Z.of_nat (length rest))) s w)
          as [v s1 w1 t1].
        simpl in *. exact IH.
    + unfold deletes_first in *. cbn [first_named].
      destruct (timeline_delete_loop ext p name
                  (seqZ (k + 1) (Z.of_nat (length rest))) s w)
        as [v s1 w1 t1].
      simpl in *. exact IH.
Qed.
(** [timeline_delete], one step at a time. *)
Lemma timeline_delete_run (args : arguments) (s : ResolveBridge) (w : World) :
  _handle_timeline_method ext "timeline_delete" args s w =
  match project s with
  | None =>
      Out (inr (Error ("Timeline '" ++ get args "name" ++ "' not found"))) s w []
  | Some p =>
      match ext w (GetTimelineCount p) with
      | (inl e, w1) => Out (inl e) s w1 [GetTimelineCount p]
      | (inr n, w1) =>
          match timeline_delete_loop ext p (get args "name")
                  (range 1 (n + 1)%Z) s w1 with
          | Out v s2 w2 t2 => Out v s2 w2 ([GetTimelineCount p] ++ t2)
          end
      end
  end.
Proof.
  unfold _handle_timeline_method, bind, attr, invoke. cbn [String.eqb Ascii.eqb Bool.eqb].
  destruct (project s) as [p |]; [| reflexivity].
  destruct (ext w (GetTimelineCount p)) as [[e | n] w1]; [reflexivity |].
  destruct (timeline_delete_loop _ _ _ _ _ _); reflexivity.
Qed.

(** [timeline_set_current], one step at a time. *)
Lemma timeline_set_current_run (args : arguments) (s : ResolveBridge)
    (w : World) :
  _handle_timeline_method ext "timeline_set_current" args s w =
  match project s with
  | None =>
      Out (inr (Error ("Timeline '" ++ get args "name" ++ "' not found"))) s w []
  | Some p =>
      match ext w (GetTimelineCount p) with
      | (inl e, w1) => Out (inl e) s w1 [GetTimelineCount p]
      | (inr n, w1) =>
          match timeline_set_current_loop ext p (get args "name")
                  (range 1 (n + 1)%Z) s w1 with
          | Out v s2 w2 t2 => Out v s2 w2 ([GetTimelineCount p] ++ t2)
          end
      end
  end.
Proof.
  unfold _handle_timeline_method, bind, attr, invoke. cbn [String.eqb Ascii.eqb Bool.eqb].
  destruct (project s) as [p |]; [| reflexivity].
  destruct (ext w (GetTimelineCount p)) as [[e | n] w1]; [reflexivity |].
  destruct (timeline_set_current_loop _ _ _ _ _ _); reflexivity.
Qed.

(** C6.  [timeline_delete] asks for the timeline count, then visits the
    indices 1 to the count, both included, and issues [DeleteTimeline] for
    the first timeline whose name equals the [name] argument and for
    nothing else: when several timelines have that name, the one of least
    index is the one deleted.  When no timeline has that name the answer
    is the "not found" error and nothing is deleted; when no project is
    open the answer is the same error and the application is not asked
    anything.  The listing hypothesis says what the timelines of the
    project are while the handler scans them. *)
Theorem timeline_delete_first_match (args : arguments) (s : ResolveBridge)
    (w : World) :
  let name := get args "name" in
  let o := _handle_timeline_method ext "timeline_delete" args s w in
  (project s = None ->
   o = Out (inr (Error ("Timeline '" ++ name ++ "' not found"))) s w []) /\
  (forall p tls,
     project s = Some p -> lists_timelines ext w p tls ->
     deletes_first ext p name tls s w o /\
     (first_named name tls = None ->
      List.filter mutating (trace o) = []) /\
     (forall (i : nat) t,
        nth_error tls i = Some (Some (t, name)) ->
        (forall (j : nat) t' n', (j < i)%nat ->
           nth_error tls j = Some (Some (t', n')) -> n' <> name) ->
        List.filter mutating (trace o) = [DeleteTimeline p t])).
Proof.
  cbv zeta. rewrite timeline_delete_run.
  split.
  - intros Hp. rewrite Hp. reflexivity.
  - intros p tls Hp [Hcount Hlist]. rewrite Hp, Hcount.
    unfold range.
    replace (Z.of_nat (length tls) + 1 - 1)%Z with (Z.of_nat (length tls))
      by lia.
    pose proof (timeline_delete_loop_spec p (get args "name") tls 1 s w Hlist)
      as Hloop.
    destruct (timeline_delete_loop ext p (get args "name")
                (seqZ 1 (Z.of_nat (length tls))) s w) as [v s1 w1 t1].
    assert (Hfirst : deletes_first ext p (get args "name") tls s w
                       (Out v s1 w1 ([GetTimelineCount p] ++ t1))).
    { unfold deletes_first in *. simpl in *. exact Hloop. }
    split; [exact Hfirst |].
    unfold deletes_first in Hfirst. simpl in Hfirst.
    destruct Hfirst as [_ Hfirst]. split.
    + intros Hnone. rewrite Hnone in Hfirst. simpl. tauto.
    + intros i t Hi Hmin.
      assert (Ht : first_named (get args "name") tls = Some t).
      { apply first_named_least. exists i. auto. }
      rewrite Ht in Hfirst. simpl. tauto.
Qed.

(** The loop of [timeline_set_current], whatever the application does. *)
Lemma timeline_set_current_loop_frame (p : handle) (name : string)
    (idxs : list Z) :
  forall (s : ResolveBridge) (w : World),
  updates_on_success_only s (timeline_set_current_loop ext p name idxs s w).
Proof.
  induction idxs as [| i rest IH]; intros s w.
  - left. reflexivity.
  - cbn [timeline_set_current_loop].
    unfold bind at 1, invoke at 1.
    destruct (ext w (GetTimelineByIndex p i)) as [[e | [t |]] w1].
    + left. reflexivity.
    + unfold bind at 1, invoke at 1.
      destruct (ext w1 (GetName t)) as [[e | n] w2]; [left; reflexivity |].
      destruct (String.eqb n name).
      * unfold bind, invoke, assign, ret.
        destruct (ext w2 (SetCurrentTimeline p t)) as [[e | [|]] w3]; simpl.
        -- left. reflexivity.
        -- right. exists t. auto.
        -- left. reflexivity.
      * specialize (IH s w2). unfold updates_on_success_only in *.
        destruct (timeline_set_current_loop ext p name rest s w2); simpl in *.
        exact IH.
    + specialize (IH s w1). unfold updates_on_success_only in *.
      destruct (timeline_set_current_loop ext p name rest s w1); simpl in *.
      exact IH.
Qed.

(** The loop of [timeline_set_current] over a listing. *)
Lemma timeline_set_current_loop_spec (p : handle) (name : string)
    (tls : list (option (handle * string))) :
  forall (k : Z) (s : ResolveBridge) (w : World),
  lists_from ext w p k tls ->
  sets_first_current ext p name tls s w
    (timeline_set_current_loop ext p name
       (seqZ k (Z.of_nat (length tls))) s w).
Proof.
  induction tls as [| entry rest IH]; intros k s w Hl.
  - unfold sets_first_current. simpl. auto.
  - destruct (lists_from_head _ _ _ _ _ Hl) as [Hidx Hname].
    specialize (IH (k + 1)%Z s w (lists_from_tail _ _ _ _ _ Hl)).
    cbn [length]. rewrite seqZ_S. cbn [timeline_set_current_loop].
    unfold bind at 1. unfold invoke at 1. rewrite Hidx.
    destruct entry as [[t n] |]; cbn [option_map fst].
    + unfold bind at 1. unfold invoke at 1. rewrite (Hname t n eq_refl).
      unfold sets_first_current in *. cbn [first_named].
      destruct (String.eqb n name).
      * unfold bind, invoke, assign, ret.
        destruct (ext w (SetCurrentTimeline p t)) as [[e | [|]] w'];
          simpl; auto.
      * destruct (timeline_set_current_loop ext p name
                    (seqZ (k + 1) (Z.of_nat (length rest))) s w)
          as [v s1 w1 t1].
        simpl in *. exact IH.
    + unfold sets_first_current in *. cbn [first_named].
      destruct (timeline_set_current_loop ext p name
                  (seqZ (k + 1) (Z.of_nat (length rest))) s w)
        as [v s1 w1 t1].
      simpl in *. exact IH.
Qed.
End Timelines.

Section SetCurrent.
Context {World : Type}.
Variable ext : World -> forall c : call, (exn + reply c) * World.
Variable RESOLVE_AVAILABLE : bool.
Variable format_exc : exn -> string.

(** [timeline_set_current], whatever the application does. *)
Lemma timeline_set_current_frame (args : arguments) (s : ResolveBridge)
    (w : World) :
  updates_on_success_only s
    (_handle_timeline_method ext "timeline_set_current" args s w).
Proof.
  rewrite timeline_set_current_run.
  destruct (project s) as [p |]; [| left; reflexivity].
  destruct (ext w (GetTimelineCount p)) as [[e | n] w1]; [left; reflexivity |].
  pose proof (timeline_set_current_loop_frame ext p (get args "name")
                (range 1 (n + 1)) s w1) as H.
  destruct (timeline_set_current_loop ext p (get args "name")
              (range 1 (n + 1)) s w1).
  exact H.
Qed.

(** C5.  [timeline_set_current] visits the timelines of the current
    project by index, from 1, comparing names exactly, and asks the
    application to make the first match current.  Measured from the moment
    the handler is entered, the current timeline of the session context
    becomes the matched reference when and only when the application
    answers [True]; with no project open, with no timeline of that name,
    with the answer [False] or with an exception, the whole context is the
    one before the call.  The first two parts hold whatever the
    application does; the listing hypothesis of the fourth says what the
    timelines of the project are while the handler scans them.  Under
    [call_api] the context before the handler is the one the refresh of
    the same call left: unless the call reports [True], the context after
    it is the refreshed one, or the untouched one when a guard stopped the
    call. *)
Theorem timeline_set_current_on_success_only (args : arguments)
    (s : ResolveBridge) (w : World) :
  let name := get args "name" in
  let o := _handle_timeline_method ext "timeline_set_current" args s w in
  let R := _refresh_current_objects ext s w in
  let a := call_api ext RESOLVE_AVAILABLE format_exc "timeline_set_current"
             args s w in
  (self o = s \/
   exists t, self o = with_timeline (Some t) s /\
             value o = inr (Result (PyBool true))) /\
  (value o <> inr (Result (PyBool true)) -> timeline (self o) = timeline s) /\
  (project s = None ->
   o = Out (inr (Error ("Timeline '" ++ name ++ "' not found"))) s w []) /\
  (forall p tls,
     project s = Some p -> lists_timelines ext w p tls ->
     sets_first_current ext p name tls s w o) /\
  (value a <> inr (Result (PyBool true)) -> self a = s \/ self a = self R).
Proof.
  cbv zeta.
  pose proof (timeline_set_current_frame args s w) as Hframe.
  split; [exact Hframe |]. split; [| split; [| split]].
  - intros Hno. destruct Hframe as [-> | [t [_ Hv]]]; [reflexivity | contradiction].
  - intros Hp. rewrite timeline_set_current_run, Hp. reflexivity.
  - intros p tls Hp [Hcount Hlist].
    rewrite timeline_set_current_run, Hp, Hcount.
    unfold range.
    replace (Z.of_nat (length tls) + 1 - 1)%Z with (Z.of_nat (length tls))
      by lia.
    pose proof (timeline_set_current_loop_spec ext p (get args "name") tls 1
                  s w Hlist) as Hloop.
    destruct (timeline_set_current_loop ext p (get args "name")
                (seqZ 1 (Z.of_nat (length tls))) s w) as [v s1 w1 t1].
    unfold sets_first_current in *. simpl in *. exact Hloop.
  - rewrite call_api_catches. cbn [value self].
    destruct RESOLVE_AVAILABLE eqn:Ha;
      [| rewrite call_api_try_guarded by auto; auto].
    destruct (resolve s) as [r |] eqn:Er;
      [| rewrite call_api_try_guarded by auto; auto].
    rewrite (call_api_try_dispatch ext true _ args s w r eq_refl Er).
    cbv zeta. cbn [value self].
    change (call_api_route ext "timeline_set_current" args)
      with (_handle_timeline_method ext "timeline_set_current" args).
    destruct (timeline_set_current_frame args
                (self (_refresh_current_objects ext s w))
                (world (_refresh_current_objects ext s w)))
      as [Hs | [t [_ Hv]]].
    + intros _. right. exact Hs.
    + rewrite Hv. intros Hno. contradiction.
Qed.
End SetCurrent.

Section Listing.
Context {World : Type}.
Variable ext : World -> forall c : call, (exn + reply c) * World.
Variable RESOLVE_AVAILABLE : bool.
Variable format_exc : exn -> string.

(** The loop of [get_timelines] assigns no attribute. *)
Lemma get_timelines_loop_self (p : handle) (idxs : list Z) :
  forall (timelines : list string) (s : ResolveBridge) (w : World),
  self (get_timelines_loop ext p idxs timelines s w) = s.
Proof.
  induction idxs as [| i rest IH]; intros timelines s w; [reflexivity |].
  cbn [get_timelines_loop]. unfold bind at 1, invoke at 1.
  destruct (ext w (GetTimelineByIndex p i)) as [[e | [t |]] w1]; [reflexivity | |].
  - unfold bind at 1, invoke at 1.
    destruct (ext w1 (GetName t)) as [[e | n] w2]; [reflexivity |].
    specialize (IH (timelines ++ [n]) s w2).
    destruct (get_timelines_loop ext p rest (timelines ++ [n]) s w2).
    simpl in *. exact IH.
  - specialize (IH timelines s w1).
    destruct (get_timelines_loop ext p rest timelines s w1).
    simpl in *. exact IH.
Qed.

(** [get_timelines] assigns no attribute. *)
Lemma get_timelines_self (args : arguments) (s : ResolveBridge) (w : World) :
  self (_handle_general_method ext "get_timelines" args s w) = s.
Proof.
  unfold _handle_general_method, bind, attr, invoke, ret.
  cbn [String.eqb Ascii.eqb Bool.eqb].
  destruct (project s) as [p |]; [| reflexivity].
  destruct (ext w (GetTimelineCount p)) as [[e | n] w1]; [reflexivity |].
  pose proof (get_timelines_loop_self p (range 1 (n + 1)) [] s w1) as H.
  destruct (get_timelines_loop ext p (range 1 (n + 1)) [] s w1)
    as [[e | l] s1 w2 t2]; simpl in *; exact H.
Qed.

(** The loop of [get_timelines] over a listing collects its names. *)
Lemma get_timelines_loop_spec (p : handle)
    (tls : list (option (handle * string))) :
  forall (k : Z) (timelines : list string) (s : ResolveBridge) (w : World),
  lists_from ext w p k tls ->
  collects_names tls timelines w
    (get_timelines_loop ext p (seqZ k (Z.of_nat (length tls))) timelines s w).
Proof.
  induction tls as [| entry rest IH]; intros k timelines s w Hl.
  - unfold collects_names. simpl. rewrite app_nil_r. auto.
  - destruct (lists_from_head _ _ _ _ _ _ Hl) as [Hidx Hname].
    pose proof (lists_from_tail _ _ _ _ _ _ Hl) as Hl'.
    cbn [length]. rewrite seqZ_S. cbn [get_timelines_loop].
    unfold bind at 1. unfold invoke at 1. rewrite Hidx.
    destruct entry as [[t n] |]; cbn [option_map fst].
    + unfold bind at 1. unfold invoke at 1. rewrite (Hname t n eq_refl).
      specialize (IH (k + 1)%Z (timelines ++ [n]) s w Hl').
      unfold collects_names in *. cbn [names_of reply].
      destruct (get_timelines_loop ext p
                  (seqZ (k + 1) (Z.of_nat (length rest)))
                  (timelines ++ [n]) s w) as [v s1 w1 t1].
      simpl in *. rewrite <- app_assoc in IH. exact IH.
    + specialize (IH (k + 1)%Z timelines s w Hl').
      unfold collects_names in *. cbn [names_of].
      destruct (get_timelines_loop ext p
                  (seqZ (k + 1) (Z.of_nat (length rest))) timelines s w)
        as [v s1 w1 t1].
      simpl in *. exact IH.
Qed.

(** X6.  [get_timelines] returns the names of the timelines of the
    current project in index order, one name per timeline the application
    hands out and none for an index at which it hands out nothing; it
    asks for no change and leaves the application as it is. *)
Lemma get_timelines_lists (args : arguments) (s : ResolveBridge) (w : World)
    (p : handle) (tls : list (option (handle * string))) :
  project s = Some p -> lists_timelines ext w p tls ->
  let o := _handle_general_method ext "get_timelines" args s w in
  value o = inr (Result (PyList (names_of tls))) /\ world o = w /\
  List.filter mutating (trace o) = [].
Proof.
  intros Hp [Hcount Hlist]. cbv zeta.
  unfold _handle_general_method, bind, attr, invoke, ret.
  cbn [String.eqb Ascii.eqb Bool.eqb].
  rewrite Hp, Hcount. unfold range.
  replace (Z.of_nat (length tls) + 1 - 1)%Z with (Z.of_nat (length tls))
    by lia.
  pose proof (get_timelines_loop_spec p tls 1 [] s w Hlist) as H.
  unfold collects_names in H.
  destruct (get_timelines_loop ext p (seqZ 1 (Z.of_nat (length tls))) [] s w)
    as [[e | l] s1 w1 t1]; simpl in *; destruct H as [Hv [Hw Ht]];
    [discriminate |].
  injection Hv as ->. rewrite app_nil_r. auto.
Qed.

(** C8.  Two [get_timelines] calls in a row, the second made in the world
    in which the first was made and which the first left as it was, return
    the same thing: the same list of names in the same order, or the same
    error. *)
Theorem get_timelines_idempotent (args args' : arguments)
    (s : ResolveBridge) (w : World) :
  let o1 := call_api ext RESOLVE_AVAILABLE format_exc "get_timelines" args s w in
  world o1 = w ->
  value (call_api ext RESOLVE_AVAILABLE format_exc "get_timelines" args'
           (self o1) (world o1)) = value o1.
Proof.
  cbv zeta. rewrite !call_api_catches. cbn [value self world].
  destruct RESOLVE_AVAILABLE eqn:Ha.
  - destruct (resolve s) as [r |] eqn:Er.
    + rewrite (call_api_try_dispatch ext true _ args s w r eq_refl Er).
      cbv zeta. cbn [value self world].
      change (call_api_route ext "get_timelines" args)
        with (_handle_general_method ext "get_timelines" args).
      rewrite get_timelines_self.
      intros Hw. rewrite Hw.
      destruct (refresh_frame ext s w) as [Hres _].
      rewrite (call_api_try_dispatch ext true _ args'
                 (self (_refresh_current_objects ext s w)) w r eq_refl)
        by congruence.
      cbv zeta. cbn [value]. rewrite refresh_idempotent.
      reflexivity.
    + rewrite !call_api_try_guarded by auto. reflexivity.
  - rewrite !call_api_try_guarded by auto. reflexivity.
Qed.
End Listing.

Section Projects.
Context {World : Type}.
Variable ext : World -> forall c : call, (exn + reply c) * World.
Variable RESOLVE_AVAILABLE : bool.
Variable format_exc : exn -> string.

(** [project_create], one step at a time. *)
Lemma project_create_run (args : arguments) (s : ResolveBridge) (w : World) :
  let name := get args "name" in
  let failed := ("Failed to create project '" ++ name ++ "'")%string in
  _handle_project_method ext "project_create" args s w =
  match project_manager s with
  | None => Out (inr (Error failed)) s w []
  | Some pm =>
      adopt_project ext (CreateProject pm name)
        (fst (ext w (CreateProject pm name)))
        (snd (ext w (CreateProject pm name)))
        failed ("Created project '" ++ name ++ "'") s
  end.
Proof.
  unfold _handle_project_method, adopt_project, bind, attr, invoke, assign, ret.
  cbn [String.eqb Ascii.eqb Bool.eqb].
  destruct (project_manager s) as [pm |]; [| reflexivity].
  destruct (ext w (CreateProject pm (get args "name"))) as [[e | [p |]] w1];
    try reflexivity.
  cbn [fst snd].
  destruct (ext w1 (GetMediaPool p)) as [[e | mp] w2]; reflexivity.
Qed.

(** [project_open], one step at a time. *)
Lemma project_open_run (args : arguments) (s : ResolveBridge) (w : World) :
  let name := get args "name" in
  let failed := ("Failed to open project '" ++ name ++ "'")%string in
  _handle_project_method ext "project_open" args s w =
  match project_manager s with
  | None => Out (inr (Error failed)) s w []
  | Some pm =>
      adopt_project ext (LoadProject pm name)
        (fst (ext w (LoadProject pm name)))
        (snd (ext w (LoadProject pm name)))
        failed ("Opened project '" ++ name ++ "'") s
  end.
Proof.
  unfold _handle_project_method, adopt_project, bind, attr, invoke, assign, ret.
  cbn [String.eqb Ascii.eqb Bool.eqb].
  destruct (project_manager s) as [pm |]; [| reflexivity].
  destruct (ext w (LoadProject pm (get args "name"))) as [[e | [p |]] w1];
    try reflexivity.
  cbn [fst snd].
  destruct (ext w1 (GetMediaPool p)) as [[e | mp] w2]; reflexivity.
Qed.

(** A successful adoption replaces the project and the media pool and
    nothing else. *)
Lemma adopt_project_success (c : call) (r : exn + option handle) (w1 : World)
    (failed created : string) (s : ResolveBridge) (v : pyvalue) :
  value (adopt_project ext c r w1 failed created s) = inr (Result v) ->
  exists p mp,
    r = inr (Some p) /\
    fst (ext w1 (GetMediaPool p)) = inr mp /\
    self (adopt_project ext c r w1 failed created s) =
      Bridge (resolve s) (project_manager s) (Some p) mp (timeline s).
Proof.
  unfold adopt_project.
  destruct r as [e | [p |]]; try discriminate.
  destruct (ext w1 (GetMediaPool p)) as [[e | mp] w2] eqn:E2; [discriminate |].
  intros _. exists p, mp. rewrite ?E2. auto.
Qed.

(** An adoption, successful or not, leaves the application handle, the
    project manager and the current timeline alone. *)
Lemma adopt_project_frame (c : call) (r : exn + option handle) (w1 : World)
    (failed created : string) (s : ResolveBridge) :
  let o := adopt_project ext c r w1 failed created s in
  timeline (self o) = timeline s /\
  resolve (self o) = resolve s /\
  project_manager (self o) = project_manager s.
Proof.
  unfold adopt_project.
  destruct r as [e | [p |]]; simpl; auto.
  destruct (ext w1 (GetMediaPool p)) as [[e | mp] w2]; simpl; auto.
Qed.

(** [project_create] and [project_open] leave the application handle, the
    project manager and the current timeline alone. *)
Lemma project_create_open_frame (method : string) (args : arguments)
    (s : ResolveBridge) (w : World) :
  method = "project_create"%string \/ method = "project_open"%string ->
  let o := _handle_project_method ext method args s w in
  timeline (self o) = timeline s /\
  resolve (self o) = resolve s /\
  project_manager (self o) = project_manager s.
Proof.
  intros [-> | ->]; cbv zeta;
    [rewrite project_create_run | rewrite project_open_run]; cbv zeta;
    (destruct (project_manager s) as [pm |] eqn:Epm;
     [rewrite <- Epm; apply adopt_project_frame | simpl; auto]).
Qed.

(** C9.  When [project_create] or [project_open] reports success the
    handler has replaced the current project by the one the application
    returned and the media pool by the pool of that project, and nothing
    else: the current timeline is the one the context held when the handler
    was entered, which under [call_api] is the one the refresh of that very
    call left, a timeline of the project that was current before. *)
Theorem project_create_open_keep_timeline (method : string) (args : arguments)
    (s : ResolveBridge) (w : World) (v : pyvalue) :
  method = "project_create"%string \/ method = "project_open"%string ->
  let name := get args "name" in
  let o := _handle_project_method ext method args s w in
  let R := _refresh_current_objects ext s w in
  let a := call_api ext RESOLVE_AVAILABLE format_exc method args s w in
  (value o = inr (Result v) ->
   exists pm p mp w1,
     project_manager s = Some pm /\
     (method = "project_create"%string /\
      ext w (CreateProject pm name) = (inr (Some p), w1) \/
      method = "project_open"%string /\
      ext w (LoadProject pm name) = (inr (Some p), w1)) /\
     fst (ext w1 (GetMediaPool p)) = inr mp /\
     self o = Bridge (resolve s) (project_manager s) (Some p) mp (timeline s)) /\
  (value a = inr (Result v) ->
   timeline (self a) = timeline (self R) /\
   resolve (self a) = resolve s /\
   project_manager (self a) = project_manager s).
Proof.
  intros Hm. cbv zeta. split.
  - destruct Hm as [-> | ->];
      [rewrite project_create_run | rewrite project_open_run]; cbv zeta;
      (destruct (project_manager s) as [pm |] eqn:Epm; [| discriminate]);
      intros Hv;
      destruct (adopt_project_success _ _ _ _ _ _ _ Hv) as [p [mp [Hr [Hmp Hs]]]];
      exists pm, p, mp.
    + exists (snd (ext w (CreateProject pm (get args "name")))).
      rewrite Hs, <- Epm. repeat split; auto. left. split; [reflexivity |].
      rewrite <- Hr. apply surjective_pairing.
    + exists (snd (ext w (LoadProject pm (get args "name")))).
      rewrite Hs, <- Epm. repeat split; auto. right. split; [reflexivity |].
      rewrite <- Hr. apply surjective_pairing.
  - rewrite call_api_catches. cbn [value self].
    destruct RESOLVE_AVAILABLE eqn:Ha;
      [| rewrite call_api_try_guarded by auto; discriminate].
    destruct (resolve s) as [r |] eqn:Er;
      [| rewrite call_api_try_guarded by auto; discriminate].
    rewrite (call_api_try_dispatch ext true method args s w r eq_refl Er).
    cbv zeta. cbn [value self].
    assert (Hroute : call_api_route ext method args =
                     _handle_project_method ext method args)
      by (destruct Hm as [-> | ->]; reflexivity).
    rewrite Hroute. intros _.
    destruct (refresh_frame ext s w) as [Hres Hpm].
    destruct (project_create_open_frame method args
                (self (_refresh_current_objects ext s w))
                (world (_refresh_current_objects ext s w)) Hm)
      as [Ht [Hr' Hpm']].
    rewrite Ht, Hr', Hpm', Hres, Hpm, Er. auto.
Qed.
End Projects.

Section RoundTrip.
Context {World : Type}.
Variable ext : World -> forall c : call, (exn + reply c) * World.
Variable RESOLVE_AVAILABLE : bool.
Variable format_exc : exn -> string.

(** The accessors of the application change nothing in it. *)
Hypothesis accessors_read_only :
  forall (w : World) (c : call), mutating c = false -> snd (ext w c) = w.

(** A project the application has created is its current project, under
    the name it was created with. *)
Hypothesis create_opens :
  forall (w w' : World) (pm p : handle) (name : string),
    ext w (CreateProject pm name) = (inr (Some p), w') ->
    fst (ext w' (GetCurrentProject pm)) = inr (Some p) /\
    fst (ext w' (GetName p)) = inr name.

(** The refresh only reads. *)
Lemma refresh_world (s : ResolveBridge) (w : World) :
  world (_refresh_current_objects ext s w) = w.
Proof.
  unfold _refresh_current_objects, _refresh_current_objects_try.
  run_monad.
  destruct (project_manager s) as [pm |]; simpl; [| reflexivity].
  pose proof (accessors_read_only w (GetCurrentProject pm) eq_refl) as H1.
  destruct (ext w (GetCurrentProject pm)) as [[e | [p |]] w1]; simpl in *;
    try exact H1.
  subst w1.
  pose proof (accessors_read_only w (GetMediaPool p) eq_refl) as H2.
  destruct (ext w (GetMediaPool p)) as [[e | mp] w2]; simpl in *;
    try exact H2.
  subst w2.
  pose proof (accessors_read_only w (GetCurrentTimeline p) eq_refl) as H3.
  destruct (ext w (GetCurrentTimeline p)) as [[e | t] w3]; simpl in *;
    exact H3.
Qed.

(** The refresh picks up the project the application reports. *)
Lemma refresh_finds_project (s : ResolveBridge) (w : World) (pm p : handle) :
  project_manager s = Some pm ->
  fst (ext w (GetCurrentProject pm)) = inr (Some p) ->
  project (self (_refresh_current_objects ext s w)) = Some p.
Proof.
  intros Hpm Hcur.
  unfold _refresh_current_objects, _refresh_current_objects_try.
  run_monad. rewrite Hpm. simpl.
  destruct (ext w (GetCurrentProject pm)) as [r w1]. simpl in Hcur. subst r.
  simpl.
  destruct (ext w1 (GetMediaPool p)) as [[e | mp] w2]; simpl; [reflexivity |].
  destruct (ext w2 (GetCurrentTimeline p)) as [[e | t] w3]; reflexivity.
Qed.

(** C7.  When [project_create] is called with the name [X] and the
    application creates the project, the context holds the new project
    (and its media pool, when the application hands it out) as soon as the
    call returns, and a [get_current_project_name] call made next returns
    [X].  The two hypotheses of the section say what the application is
    taken to do: its accessors change nothing, and a project it created is
    its current project under the name given. *)
Theorem project_create_round_trip (args args' : arguments) (X : string)
    (s : ResolveBridge) (w w1 : World) (pm p : handle) :
  RESOLVE_AVAILABLE = true ->
  resolve s <> None ->
  project_manager s = Some pm ->
  args !! "name"%string = Some X ->
  ext w (CreateProject pm X) = (inr (Some p), w1) ->
  let o1 := call_api ext RESOLVE_AVAILABLE format_exc "project_create" args s w in
  let o2 := call_api ext RESOLVE_AVAILABLE format_exc
              "get_current_project_name" args' (self o1) (world o1) in
  project (self o1) = Some p /\
  (forall mp, fst (ext w1 (GetMediaPool p)) = inr mp ->
     media_pool (self o1) = mp /\
     value o1 = inr (Result (PyStr ("Created project '" ++ X ++ "'")))) /\
  value o2 = inr (Result (PyStr X)).
Proof.
  intros Ha Hres Hpm Hname Hcreate.
  destruct (resolve s) as [r |] eqn:Er; [clear Hres | congruence].
  assert (Hget : get args "name" = X) by (unfold get; rewrite Hname; reflexivity).
  destruct (create_opens _ _ _ _ _ Hcreate) as [Hcur Hnm].
  destruct (refresh_frame ext s w) as [HRres HRpm].
  pose proof (refresh_world s w) as HRw.
  pose proof (accessors_read_only w1 (GetMediaPool p) eq_refl) as Hmp.
  assert (H1 : let o1 := call_api ext RESOLVE_AVAILABLE format_exc
                           "project_create" args s w in
               resolve (self o1) = Some r /\
               project_manager (self o1) = Some pm /\
               project (self o1) = Some p /\
               world o1 = w1 /\
               forall mp, fst (ext w1 (GetMediaPool p)) = inr mp ->
                 media_pool (self o1) = mp /\
                 value o1 =
                   inr (Result (PyStr ("Created project '" ++ X ++ "'")))).
  { cbv zeta. rewrite call_api_catches. cbn [value self world].
    rewrite (call_api_try_dispatch ext _ _ args s w r Ha Er).
    cbv zeta. cbn [value self world].
    change (call_api_route ext "project_create" args)
      with (_handle_project_method ext "project_create" args).
    rewrite project_create_run. cbv zeta.
    rewrite HRpm, Hpm, HRw, Hget, Hcreate. unfold adopt_project. cbn [fst snd].
    destruct (ext w1 (GetMediaPool p)) as [[e | mp] w2]; simpl in *; subst w2;
      rewrite HRres, HRpm, Er, Hpm; repeat split; auto; try discriminate.
    congruence. }
  cbv zeta in *. destruct H1 as [Hr1 [Hpm1 [Hp1 [Hw1 Hmp1]]]].
  split; [exact Hp1 |]. split; [exact Hmp1 |].
  rewrite call_api_catches. cbn [value].
  rewrite (call_api_try_dispatch ext _ _ args' _ _ r Ha Hr1).
  cbv zeta. cbn [value]. rewrite Hw1.
  change (call_api_route ext "get_current_project_name" args')
    with (_handle_general_method ext "get_current_project_name" args').
  rewrite refresh_world.
  pose proof (refresh_finds_project _ w1 pm p Hpm1 Hcur) as Hfound.
  unfold _handle_general_method, bind, attr, invoke, ret.
  cbn [String.eqb Ascii.eqb Bool.eqb].
  rewrite Hfound.
  destruct (ext w1 (GetName p)) as [rn w2]. simpl in Hnm. subst rn.
  reflexivity.
Qed.
End RoundTrip.

(** ** The session context across calls *)

Section Context.
Context {World : Type}.
Variable ext : World -> forall c : call, (exn + reply c) * World.

(** [project_close], when the application reports success, clears the
    three references. *)
Lemma project_close_clears (args : arguments) (s : ResolveBridge) (w : World) :
  let o := _handle_project_method ext "project_close" args s w in
  value o = inr (Result (PyBool true)) ->
  project (self o) = None /\ media_pool (self o) = None /\
  timeline (self o) = None.
Proof.
  cbv zeta.
  unfold _handle_project_method, bind, attr, invoke, assign, ret.
  cbn [String.eqb Ascii.eqb Bool.eqb].
  destruct (project_manager s) as [pm |]; [| discriminate].
  destruct (ext w (CloseProject pm (project s))) as [[e | [|]] w1]; simpl;
    [discriminate | auto | discriminate].
Qed.

(** With neither a project nor a media pool in the context, every
    timeline handler fails without asking anything of the application. *)
Lemma timeline_handler_needs_context (method : string) (args : arguments)
    (s : ResolveBridge) (w : World) :
  project s = None -> media_pool s = None ->
  exists msg,
    _handle_timeline_method ext method args s w = Out (inr (Error msg)) s w [].
Proof.
  intros Hp Hmp.
  unfold _handle_timeline_method, bind, attr, ret.
  repeat match goal with
    | |- context [String.eqb method ?x] => destruct (String.eqb method x)
    end;
    rewrite ?Hp, ?Hmp; eexists; reflexivity.
Qed.

(** The same for the media handlers. *)
Lemma media_handler_needs_context (method : string) (args : arguments)
    (s : ResolveBridge) (w : World) :
  media_pool s = None ->
  exists msg,
    _handle_media_method ext method args s w = Out (inr (Error msg)) s w [].
Proof.
  intros Hmp.
  unfold _handle_media_method, bind, attr, ret.
  repeat match goal with
    | |- context [String.eqb method ?x] => destruct (String.eqb method x)
    end;
    rewrite ?Hmp; eexists; reflexivity.
Qed.
End Context.

(** ** Runs on the small host application *)

(** [__init__], started while the project Film is open. *)
Lemma sim_started :
  self (__init__ Sim.ext true blank Sim.film) = Sim.started /\
  consistent Sim.started.
Proof.
  split; [vm_compute; reflexivity |].
  unfold consistent. simpl. discriminate.
Qed.

(** C1, on the code.  The bridge is started while a project is open, the
    project is then closed in the application, and a request is served.
    The refresh of that request finds no current project and drops the
    project reference, but the media pool and the timeline of the closed
    project stay in the context: a state reached through [call_api] in
    which the project is absent and the two derived references are not. *)
Theorem refresh_keeps_pool_and_timeline_of_closed_project :
  let s0 := self (__init__ Sim.ext true blank Sim.film) in
  let o := call_api Sim.ext true Sim.format_exc "is_running" ∅ s0 Sim.closed in
  consistent s0 /\
  fst (Sim.ext Sim.closed (GetCurrentProject 2)) = inr None /\
  self (_refresh_current_objects Sim.ext s0 Sim.closed) =
    Bridge (Some 1) (Some 2) None (Some 3) (Some 10) /\
  value o = inr (Result (PyBool true)) /\
  project (self o) = None /\
  media_pool (self o) = Some 3 /\
  timeline (self o) = Some 10.
Proof.
  cbv zeta. split.
  - destruct sim_started as [-> H]. exact H.
  - vm_compute. repeat split; reflexivity.
Qed.

(** C2, on the code.  In the state the previous theorem reaches, the
    project is absent when the handler is entered, and yet
    [timeline_create] and [media_import] pass their guard on the stale
    media pool, ask the application to create a timeline and to import a
    file, and report success. *)
Theorem handlers_run_on_stale_media_pool :
  let R := _refresh_current_objects Sim.ext Sim.started Sim.closed in
  let a := call_api Sim.ext true Sim.format_exc "timeline_create"
             {["name"%string := "A"%string]} Sim.started Sim.closed in
  let b := call_api Sim.ext true Sim.format_exc "media_import"
             {["file_path"%string := "a.mov"%string]} Sim.started Sim.closed in
  project (self R) = None /\
  value a = inr (Result (PyStr "Created timeline 'A'")) /\
  trace a = [GetCurrentProject 2; CreateEmptyTimeline 3 "A"] /\
  value b = inr (Result (PyStr "Imported media: a.mov")) /\
  trace b = [GetCurrentProject 2; ImportMedia 3 ["a.mov"%string]].
Proof.
  vm_compute. repeat split; reflexivity.
Qed.

(** The accessors of the small application change nothing in it. *)
Lemma sim_accessors_read_only (w : Sim.app) (c : call) :
  mutating c = false -> snd (Sim.ext w c) = w.
Proof.
  unfold Sim.ext. destruct (Sim.broken w); [destruct c; reflexivity |].
  destruct c; simpl; intros H; try reflexivity; discriminate.
Qed.

(** A project the small application has created is its current project,
    under the name it was created with. *)
Lemma sim_create_opens (w w' : Sim.app) (pm p : handle) (name : string) :
  Sim.ext w (CreateProject pm name) = (inr (Some p), w') ->
  fst (Sim.ext w' (GetCurrentProject pm)) = inr (Some p) /\
  fst (Sim.ext w' (GetName p)) = inr name.
Proof.
  unfold Sim.ext. destruct (Sim.broken w) eqn:Eb; [discriminate |].
  simpl. intros [= <- <-]. simpl. rewrite Eb. simpl. auto.
Qed.

Lemma sim_film_listing : lists_timelines Sim.ext Sim.film 5 Sim.film_timelines.
Proof.
  split; [reflexivity |].
  intros [| [| [| i]]] entry H; simpl in H;
    try (destruct i; discriminate);
    inversion H; subst entry; (split; [reflexivity |]);
    intros t n [= <- <-]; reflexivity.
Qed.

(** C3: an exception raised during the refresh is not turned into an
    error result.  The application raises on [GetCurrentProject], the
    first call of the refresh, and [call_api] answers [is_running] with the
    result [True]. *)
Lemma refresh_exception_is_not_reported :
  value (_refresh_current_objects_try Sim.ext Sim.started Sim.hung) =
    inl "connection lost"%string /\
  value (call_api Sim.ext true Sim.format_exc "is_running" ∅
           Sim.started Sim.hung) = inr (Result (PyBool true)) /\
  is_error (Result (PyBool true)) = false.
Proof.
  vm_compute. repeat split; reflexivity.
Qed.

(** C10: with the application handle absent, the error is not always
    "DaVinci Resolve is not running".  When the scripting module could not
    be imported, [__init__] leaves the handle absent and [call_api] stops
    at its first guard, with another message. *)
Lemma handle_absent_other_error :
  self (__init__ Sim.ext false blank Sim.film) = blank /\
  resolve blank = None /\
  call_api Sim.ext false Sim.format_exc "is_running" ∅ blank Sim.film =
    Out (inr (Error "DaVinci Resolve Python API not available")) blank
      Sim.film [] /\
  Error "DaVinci Resolve Python API not available" <>
    Error "DaVinci Resolve is not running".
Proof.
  repeat split; try (vm_compute; reflexivity). discriminate.
Qed.

(** An exception raised while the handler runs, reported by [call_api]. *)
Lemma call_api_total_witness :
  value (call_api Sim.ext true Sim.format_exc "get_current_project_name" ∅
           Sim.started Sim.hung) =
  inr (ErrorTraceback "API call failed: connection lost"
         (Sim.format_exc "connection lost")).
Proof.
  apply (proj1 (proj2 (proj2
           (call_api_total Sim.ext true Sim.format_exc
              "get_current_project_name" ∅ Sim.started Sim.hung)))
           "connection lost"%string).
  - reflexivity.
  - discriminate.
  - vm_compute. reflexivity.
Defined.

(** A method that matches no rule, and two general methods. *)
Lemma routing_selects_one_group_witness :
  value (call_api Sim.ext true Sim.format_exc "ping" ∅ Sim.started Sim.film) =
    inr (Error "Unknown general method: ping") /\
  call_api_route Sim.ext "is_running" ∅ Sim.started Sim.film =
    Out (inr (Result (PyBool true))) Sim.started Sim.film [] /\
  call_api_route Sim.ext "get_current_project_name" ∅ Sim.started Sim.film =
    Out (inr (Result (PyStr "Film"))) Sim.started Sim.film [GetName 5].
Proof.
  split; [| split].
  - apply (proj2 (proj1 (proj2 (proj2
             (routing_selects_one_group Sim.ext true Sim.format_exc "ping" ∅
                Sim.started Sim.film))) eq_refl)).
    + reflexivity.
    + discriminate.
  - exact (proj1 (proj2 (proj2 (proj2 (proj2 (proj2
             (routing_selects_one_group Sim.ext true Sim.format_exc "ping" ∅
                Sim.started Sim.film))))))).
  - exact (proj1 (proj2 (proj2 (proj2 (proj2 (proj2 (proj2
             (routing_selects_one_group Sim.ext true Sim.format_exc "ping" ∅
                Sim.started Sim.film)))))))).
Defined.

(** Setting the current timeline to Trailer, the second of Film. *)
Lemma timeline_set_current_on_success_only_witness :
  self (_handle_timeline_method Sim.ext "timeline_set_current"
          {["name"%string := "Trailer"%string]} Sim.started Sim.film) =
  with_timeline (Some 11) Sim.started.
Proof.
  pose proof (proj1 (proj2 (proj2 (proj2
                (timeline_set_current_on_success_only Sim.ext true
                   Sim.format_exc {["name"%string := "Trailer"%string]}
                   Sim.started Sim.film))))
                5 Sim.film_timelines eq_refl sim_film_listing) as H.
  unfold sets_first_current in H.
  change (get {["name"%string := "Trailer"%string]} "name") with "Trailer"%string in H.
  simpl first_named in H. simpl in H.
  exact (proj2 (proj2 H)).
Defined.

(** Deleting Cut, a name two timelines of Film have: the one at index 1
    goes, the one at index 3 stays. *)
Lemma timeline_delete_first_match_witness :
  List.filter mutating
    (trace (_handle_timeline_method Sim.ext "timeline_delete"
              {["name"%string := "Cut"%string]} Sim.started Sim.film)) =
  [DeleteTimeline 5 10].
Proof.
  apply (proj2 (proj2 (proj2
           (timeline_delete_first_match Sim.ext
              {["name"%string := "Cut"%string]} Sim.started Sim.film)
           5 Sim.film_timelines eq_refl sim_film_listing)) 0%nat 10).
  - reflexivity.
  - intros j t' n' Hj. inversion Hj.
Defined.

(** Creating the project Pilot and asking for the name of the current
    project. *)
Lemma project_create_round_trip_witness :
  value (call_api Sim.ext true Sim.format_exc "get_current_project_name" ∅
           (self (call_api Sim.ext true Sim.format_exc "project_create"
                    {["name"%string := "Pilot"%string]} Sim.started Sim.film))
           (world (call_api Sim.ext true Sim.format_exc "project_create"
                     {["name"%string := "Pilot"%string]} Sim.started Sim.film)))
  = inr (Result (PyStr "Pilot")).
Proof.
  refine (proj2 (proj2
            (project_create_round_trip Sim.ext true Sim.format_exc
               sim_accessors_read_only sim_create_opens
               {["name"%string := "Pilot"%string]} ∅ "Pilot"
               Sim.started Sim.film
               (Sim.App (Some 20) "Pilot" [] 21 false) 2 20
               eq_refl _ eq_refl eq_refl eq_refl))).
  discriminate.
Defined.

(** Listing the timelines of Film twice. *)
Lemma get_timelines_idempotent_witness :
  value (call_api Sim.ext true Sim.format_exc "get_timelines" ∅
           (self (call_api Sim.ext true Sim.format_exc "get_timelines" ∅
                    Sim.started Sim.film))
           (world (call_api Sim.ext true Sim.format_exc "get_timelines" ∅
                     Sim.started Sim.film)))
  = value (call_api Sim.ext true Sim.format_exc "get_timelines" ∅
             Sim.started Sim.film).
Proof.
  apply (get_timelines_idempotent Sim.ext true Sim.format_exc ∅ ∅
           Sim.started Sim.film).
  vm_compute. reflexivity.
Defined.

(** Creating the project Pilot while timeline 10 of Film is current: the
    context keeps timeline 10. *)
Lemma project_create_open_keep_timeline_witness :
  timeline (self (call_api Sim.ext true Sim.format_exc "project_create"
                    {["name"%string := "Pilot"%string]} Sim.started Sim.film))
  = timeline (self (_refresh_current_objects Sim.ext Sim.started Sim.film)) /\
  timeline (self (_refresh_current_objects Sim.ext Sim.started Sim.film))
  = Some 10.
Proof.
  split; [| vm_compute; reflexivity].
  apply (proj2 (project_create_open_keep_timeline Sim.ext true Sim.format_exc
                  "project_create" {["name"%string := "Pilot"%string]}
                  Sim.started Sim.film (PyStr "Created project 'Pilot'")
                  (or_introl eq_refl))).
  vm_compute. reflexivity.
Defined.

(** [is_running] with the application handle absent. *)
Lemma is_running_never_false_witness :
  call_api Sim.ext true Sim.format_exc "is_running" ∅ blank Sim.film =
  Out (inr (Error "DaVinci Resolve is not running")) blank Sim.film [].
Proof.
  apply (proj1 (is_running_never_false Sim.ext true Sim.format_exc ∅
                  blank Sim.film)).
  reflexivity.
Defined.

(** After Cut was deleted, Film lists one timeline less, and still one
    named Cut. *)
Example sim_delete_then_list :
  let o := call_api Sim.ext true Sim.format_exc "timeline_delete"
             {["name"%string := "Cut"%string]} Sim.started Sim.film in
  value (call_api Sim.ext true Sim.format_exc "get_timelines" ∅
           (self o) (world o)) =
  inr (Result (PyList ["Trailer"; "Cut"]%string)).
Proof.
  vm_compute. reflexivity.
Qed.

(** Names are compared exactly: no timeline of Film is named cut. *)
Example sim_set_current_case_sensitive :
  _handle_timeline_method Sim.ext "timeline_set_current"
    {["name"%string := "cut"%string]} Sim.started Sim.film =
  Out (inr (Error "Timeline 'cut' not found")) Sim.started Sim.film
    [GetTimelineCount 5; GetTimelineByIndex 5 1; GetName 10;
     GetTimelineByIndex 5 2; GetName 11; GetTimelineByIndex 5 3; GetName 12].
Proof.
  vm_compute. reflexivity.
Qed.

(** * Further properties of the bridge *)

Section StartUp.
Context {World : Type}.
Variable ext : World -> forall c : call, (exn + reply c) * World.
Variable RESOLVE_AVAILABLE : bool.

End StartUp.

Section RefreshMore.
Context {World : Type}.
Variable ext : World -> forall c : call, (exn + reply c) * World.

(** The refresh asks for no change. *)
Lemma refresh_mutations (s : ResolveBridge) (w : World) :
  mutations (_refresh_current_objects ext s w) = [].
Proof.
  unfold mutations, _refresh_current_objects, _refresh_current_objects_try.
  run_monad.
  destruct (project_manager s) as [pm |]; simpl; [| reflexivity].
  ask ext; [reflexivity |].
  destruct v as [p |]; simpl; [| reflexivity].
  ask ext; [reflexivity |].
  ask ext; reflexivity.
Qed.

(** X2.  The refresh only reads, and what it calls is fixed by the
    answers it gets.  Without a project manager it calls nothing and
    leaves the context as it is.  With one it calls [GetCurrentProject];
    when that raises or reports no project it stops there; otherwise it
    calls [GetMediaPool] of the project found; when that raises it stops
    there; otherwise it calls [GetCurrentTimeline] of the project too.
    It asks for no change, it returns in every case, and the world it
    leaves is the one its last call left. *)
Theorem refresh_only_reads (s : ResolveBridge) (w : World) :
  let R := _refresh_current_objects ext s w in
  mutations R = [] /\
  value R = inr tt /\
  match project_manager s with
  | None => R = Out (inr tt) s w []
  | Some pm =>
      match ext w (GetCurrentProject pm) with
      | (inl _, w1) | (inr None, w1) =>
          trace R = [GetCurrentProject pm] /\ world R = w1
      | (inr (Some p), w1) =>
          match ext w1 (GetMediaPool p) with
          | (inl _, w2) =>
              trace R = [GetCurrentProject pm; GetMediaPool p] /\
              world R = w2
          | (inr _, w2) =>
              trace R = [GetCurrentProject pm; GetMediaPool p;
                         GetCurrentTimeline p] /\
              world R = snd (ext w2 (GetCurrentTimeline p))
          end
      end
  end.
Proof.
  cbv zeta. split; [apply refresh_mutations |].
  split; [apply refresh_returns |].
  unfold _refresh_current_objects, _refresh_current_objects_try.
  run_monad.
  destruct (project_manager s) as [pm |]; simpl; [| reflexivity].
  destruct (ext w (GetCurrentProject pm)) as [[e | [p |]] w1]; simpl; auto.
  destruct (ext w1 (GetMediaPool p)) as [[e | mp] w2]; simpl; auto.
  destruct (ext w2 (GetCurrentTimeline p)) as [[e | t] w3]; simpl; auto.
Qed.

(** X3.  When the application reports a current project, the refresh
    replaces the three cached references by what the application answers,
    whatever they were before.  When [GetMediaPool] raises, only the
    project has been replaced: the media pool and the timeline cached
    before, possibly of another project, stay next to the new project. *)
Theorem refresh_replaces_references (s : ResolveBridge) (w w1 : World)
    (pm p : handle) :
  project_manager s = Some pm ->
  ext w (GetCurrentProject pm) = (inr (Some p), w1) ->
  let R := _refresh_current_objects ext s w in
  (forall mp t w2 w3,
     ext w1 (GetMediaPool p) = (inr mp, w2) ->
     ext w2 (GetCurrentTimeline p) = (inr t, w3) ->
     self R = Bridge (resolve s) (project_manager s) (Some p) mp t /\
     world R = w3) /\
  (forall e w2,
     ext w1 (GetMediaPool p) = (inl e, w2) ->
     self R = with_project (Some p) s /\ value R = inr tt) /\
  (forall mp e w2 w3,
     ext w1 (GetMediaPool p) = (inr mp, w2) ->
     ext w2 (GetCurrentTimeline p) = (inl e, w3) ->
     self R = with_media_pool mp (with_project (Some p) s) /\
     value R = inr tt).
Proof.
  intros Hpm Hcur. cbv zeta.
  unfold _refresh_current_objects, _refresh_current_objects_try.
  run_monad. rewrite Hpm. simpl. rewrite Hcur. simpl.
  repeat split; intros.
  - rewrite H. simpl. rewrite H0.
    unfold with_timeline, with_media_pool, with_project. simpl.
    rewrite Hpm. reflexivity.
  - rewrite H. simpl. rewrite H0. reflexivity.
  - rewrite H. reflexivity.
  - rewrite H. reflexivity.
  - rewrite H. simpl. rewrite H0. reflexivity.
  - rewrite H. simpl. rewrite H0. reflexivity.
Qed.
End RefreshMore.

Section Frames.
Context {World : Type}.
Variable ext : World -> forall c : call, (exn + reply c) * World.

Lemma keeps_context_handles {A : Type} (s : ResolveBridge)
    (o : outcome World A) :
  keeps_context s o -> keeps_handles s o.
Proof.
  intros [Hs H]. unfold keeps_handles. rewrite Hs. auto.
Qed.

(** Closing the goals left once the answers of the application are
    distinguished. *)
Ltac frame_done :=
  unfold keeps_context, keeps_handles, mutations; simpl; auto.

(** Putting accessor calls in front of a run changes neither property. *)
Lemma keeps_context_after {A : Type} (s : ResolveBridge) (t0 : list call)
    (o : outcome World A) :
  List.filter mutating t0 = [] ->
  keeps_context s o ->
  keeps_context s (Out (value o) (self o) (world o) (t0 ++ trace o)).
Proof.
  intros H0 [Hs Hm]. unfold keeps_context, mutations in *. simpl.
  rewrite List.filter_app, H0. auto.
Qed.

Lemma keeps_handles_after {A : Type} (s : ResolveBridge) (t0 : list call)
    (o : outcome World A) :
  List.filter mutating t0 = [] ->
  keeps_handles s o ->
  keeps_handles s (Out (value o) (self o) (world o) (t0 ++ trace o)).
Proof.
  intros H0 [Hr [Hp Hm]]. unfold keeps_handles, mutations in *. simpl.
  rewrite List.filter_app, H0. auto.
Qed.

(** The loop of [get_timelines] asks for no change. *)
Lemma get_timelines_loop_reads (p : handle) (idxs : list Z) :
  forall (timelines : list string) (s : ResolveBridge) (w : World),
  mutations (get_timelines_loop ext p idxs timelines s w) = [].
Proof.
  unfold mutations.
  induction idxs as [| i rest IH]; intros timelines s w; [reflexivity |].
  cbn [get_timelines_loop]. unfold bind at 1, invoke at 1.
  destruct (ext w (GetTimelineByIndex p i)) as [[e | [t |]] w1]; [reflexivity | |].
  - unfold bind at 1, invoke at 1.
    destruct (ext w1 (GetName t)) as [[e | n] w2]; [reflexivity |].
    specialize (IH (timelines ++ [n]) s w2). cbn [reply] in *.
    destruct (get_timelines_loop ext p rest (timelines ++ [n]) s w2).
    simpl in *. exact IH.
  - specialize (IH timelines s w1).
    destruct (get_timelines_loop ext p rest timelines s w1).
    simpl in *. exact IH.
Qed.

(** The loop of [timeline_delete] assigns nothing and deletes at most one
    timeline. *)
Lemma timeline_delete_loop_frame (p : handle) (name : string) (idxs : list Z) :
  forall (s : ResolveBridge) (w : World),
  keeps_context s (timeline_delete_loop ext p name idxs s w).
Proof.
  induction idxs as [| i rest IH]; intros s w; [frame_done |].
  cbn [timeline_delete_loop]. unfold bind at 1, invoke at 1.
  destruct (ext w (GetTimelineByIndex p i)) as [[e | [t |]] w1]; [frame_done | |].
  - unfold bind at 1, invoke at 1.
    destruct (ext w1 (GetName t)) as [[e | n] w2]; [frame_done |].
    destruct (String.eqb n name).
    + unfold bind, invoke, ret.
      destruct (ext w2 (DeleteTimeline p t)) as [[e | b] w3]; frame_done.
    + specialize (IH s w2).
      destruct (timeline_delete_loop ext p name rest s w2) as [v s1 w3 t1].
      apply (keeps_context_after s [GetTimelineByIndex p i; GetName t]
               (Out v s1 w3 t1) eq_refl IH).
  - specialize (IH s w1).
    destruct (timeline_delete_loop ext p name rest s w1) as [v s1 w3 t1].
    apply (keeps_context_after s [GetTimelineByIndex p i]
             (Out v s1 w3 t1) eq_refl IH).
Qed.

(** The loop of [timeline_set_current] keeps the handles and asks for at
    most one change. *)
Lemma timeline_set_current_loop_handles (p : handle) (name : string)
    (idxs : list Z) :
  forall (s : ResolveBridge) (w : World),
  keeps_handles s (timeline_set_current_loop ext p name idxs s w).
Proof.
  induction idxs as [| i rest IH]; intros s w; [frame_done |].
  cbn [timeline_set_current_loop]. unfold bind at 1, invoke at 1.
  destruct (ext w (GetTimelineByIndex p i)) as [[e | [t |]] w1]; [frame_done | |].
  - unfold bind at 1, invoke at 1.
    destruct (ext w1 (GetName t)) as [[e | n] w2]; [frame_done |].
    destruct (String.eqb n name).
    + unfold bind, invoke, assign, ret.
      destruct (ext w2 (SetCurrentTimeline p t)) as [[e | [|]] w3]; frame_done.
    + specialize (IH s w2).
      destruct (timeline_set_current_loop ext p name rest s w2)
        as [v s1 w3 t1].
      apply (keeps_handles_after s [GetTimelineByIndex p i; GetName t]
               (Out v s1 w3 t1) eq_refl IH).
  - specialize (IH s w1).
    destruct (timeline_set_current_loop ext p name rest s w1)
      as [v s1 w3 t1].
    apply (keeps_handles_after s [GetTimelineByIndex p i]
             (Out v s1 w3 t1) eq_refl IH).
Qed.

(** The general handlers assign nothing. *)
Lemma general_handler_frame (method : string) (args : arguments)
    (s : ResolveBridge) (w : World) :
  keeps_context s (_handle_general_method ext method args s w).
Proof.
  unfold _handle_general_method.
  destruct (String.eqb method "is_running"); [frame_done |].
  destruct (String.eqb method "get_current_project_name").
  { unfold bind, attr, invoke, ret.
    destruct (project s) as [p |]; [| frame_done].
    destruct (ext w (GetName p)) as [[e | n] w1]; frame_done. }
  destruct (String.eqb method "get_timelines").
  { unfold bind at 1, attr at 1.
    destruct (project s) as [p |]; [| frame_done].
    unfold bind at 1, invoke at 1.
    destruct (ext w (GetTimelineCount p)) as [[e | n] w1]; [frame_done |].
    pose proof (get_timelines_loop_self ext p (range 1 (n + 1)) [] s w1) as Hs.
    pose proof (get_timelines_loop_reads p (range 1 (n + 1)) [] s w1) as Hm.
    unfold bind, ret, mutations in *. cbn [reply] in *.
    destruct (get_timelines_loop ext p (range 1 (n + 1)) [] s w1)
      as [[e | l] s1 w2 t2]; simpl in *; subst s1;
      unfold keeps_context, mutations; simpl;
      rewrite ?app_nil_r, Hm; simpl; auto. }
  destruct (String.eqb method "switch_page"); [| frame_done].
  unfold bind, attr, invoke, ret, raise.
  destruct (resolve s) as [r |]; [| frame_done].
  destruct (ext w (OpenPage r (get args "page"))) as [[e | b] w1]; frame_done.
Qed.

(** The project handlers keep the handles; [project_save] and the unknown
    branch assign nothing. *)
Lemma project_handler_frame (method : string) (args : arguments)
    (s : ResolveBridge) (w : World) :
  let o := _handle_project_method ext method args s w in
  keeps_handles s o /\
  (existsb (String.eqb method) assigning_methods = false -> keeps_context s o).
Proof.
  cbv zeta. unfold _handle_project_method, assigning_methods. simpl existsb.
  destruct (String.eqb method "project_create").
  { split; [| discriminate].
    unfold bind, attr, invoke, assign, ret.
    destruct (project_manager s) as [pm |]; [| frame_done].
    destruct (ext w (CreateProject pm (get args "name"))) as [[e | [p |]] w1];
      try frame_done.
    destruct (ext w1 (GetMediaPool p)) as [[e | mp] w2]; frame_done. }
  destruct (String.eqb method "project_open").
  { split; [| discriminate].
    unfold bind, attr, invoke, assign, ret.
    destruct (project_manager s) as [pm |]; [| frame_done].
    destruct (ext w (LoadProject pm (get args "name"))) as [[e | [p |]] w1];
      try frame_done.
    destruct (ext w1 (GetMediaPool p)) as [[e | mp] w2]; frame_done. }
  destruct (String.eqb method "project_save").
  { assert (H : keeps_context s
                  ((let! pm := attr project_manager in
                    match pm with
                    | Some pm =>
                        let! success := invoke ext (SaveProject pm) in
                        ret (Result (PyBool success))
                    | None => ret (Error "No project manager available")
                    end) s w)).
    { unfold bind, attr, invoke, ret.
      destruct (project_manager s) as [pm |]; [| frame_done].
      destruct (ext w (SaveProject pm)) as [[e | b] w1]; frame_done. }
    split; [apply keeps_context_handles; exact H | intros _; exact H]. }
  destruct (String.eqb method "project_close").
  { split; [| simpl; discriminate].
    unfold bind, attr, invoke, assign, ret.
    destruct (project_manager s) as [pm |]; [| frame_done].
    destruct (ext w (CloseProject pm (project s))) as [[e | [|]] w1];
      frame_done. }
  split; [frame_done | intros _; frame_done].
Qed.

(** The timeline handlers keep the handles; all but
    [timeline_set_current] assign nothing. *)
Lemma timeline_handler_frame (method : string) (args : arguments)
    (s : ResolveBridge) (w : World) :
  let o := _handle_timeline_method ext method args s w in
  keeps_handles s o /\
  (existsb (String.eqb method) assigning_methods = false -> keeps_context s o).
Proof.
  cbv zeta. unfold _handle_timeline_method, assigning_methods. simpl existsb.
  destruct (String.eqb method "timeline_create").
  { assert (H : keeps_context s
                  ((let! mp := attr media_pool in
                    match mp with
                    | Some mp =>
                        let! timeline :=
                          invoke ext (CreateEmptyTimeline mp (get args "name")) in
                        match timeline with
                        | Some _ =>
                            ret (Result (PyStr ("Created timeline '" ++
                                                get args "name" ++ "'")))
                        | None =>
                            ret (Error ("Failed to create timeline '" ++
                                        get args "name" ++ "'"))
                        end
                    | None =>
                        ret (Error ("Failed to create timeline '" ++
                                    get args "name" ++ "'"))
                    end) s w)).
    { unfold bind, attr, invoke, ret.
      destruct (media_pool s) as [mp |]; [| frame_done].
      destruct (ext w (CreateEmptyTimeline mp (get args "name")))
        as [[e | [t |]] w1]; frame_done. }
    split; [apply keeps_context_handles; exact H | intros _; exact H]. }
  destruct (String.eqb method "timeline_delete").
  { assert (H : keeps_context s
                  ((let! p := attr project in
                    match p with
                    | Some p =>
                        let! timeline_count := invoke ext (GetTimelineCount p) in
                        timeline_delete_loop ext p (get args "name")
                          (range 1 (timeline_count + 1))
                    | None =>
                        ret (Error ("Timeline '" ++ get args "name" ++
                                    "' not found"))
                    end) s w)).
    { unfold bind at 1, attr at 1.
      destruct (project s) as [p |]; [| frame_done].
      unfold bind, invoke.
      destruct (ext w (GetTimelineCount p)) as [[e | n] w1]; [frame_done |].
      pose proof (timeline_delete_loop_frame p (get args "name")
                    (range 1 (n + 1)) s w1) as H.
      destruct (timeline_delete_loop ext p (get args "name")
                  (range 1 (n + 1)) s w1) as [v s1 w2 t2].
      apply (keeps_context_after s ([] ++ [GetTimelineCount p])
               (Out v s1 w2 t2) eq_refl H). }
    split; [apply keeps_context_handles; exact H | intros _; exact H]. }
  destruct (String.eqb method "timeline_set_current").
  { split; [| simpl; rewrite ?orb_true_r; discriminate].
    unfold bind at 1, attr at 1.
    destruct (project s) as [p |]; [| frame_done].
    unfold bind, invoke.
    destruct (ext w (GetTimelineCount p)) as [[e | n] w1]; [frame_done |].
    pose proof (timeline_set_current_loop_handles p (get args "name")
                  (range 1 (n + 1)) s w1) as H.
    destruct (timeline_set_current_loop ext p (get args "name")
                (range 1 (n + 1)) s w1) as [v s1 w2 t2].
    apply (keeps_handles_after s ([] ++ [GetTimelineCount p])
             (Out v s1 w2 t2) eq_refl H). }
  split; [frame_done | intros _; frame_done].
Qed.

(** The media handlers assign nothing. *)
Lemma media_handler_frame (method : string) (args : arguments)
    (s : ResolveBridge) (w : World) :
  keeps_context s (_handle_media_method ext method args s w).
Proof.
  unfold _handle_media_method.
  destruct (String.eqb method "media_import").
  { unfold bind, attr, invoke, ret.
    destruct (media_pool s) as [mp |]; [| frame_done].
    destruct (ext w (ImportMedia mp [get args "file_path"]))
      as [[e | [| c l]] w1]; frame_done. }
  destruct (String.eqb method "media_create_bin"); [| frame_done].
  unfold bind, attr, invoke, ret.
  destruct (media_pool s) as [mp |]; [| frame_done].
  destruct (ext w (CreateBin mp (get args "name"))) as [[e | [b |]] w1];
    frame_done.
Qed.

(** The routing chain keeps the handles, and assigns nothing unless the
    method is one of the four that do. *)
Lemma route_frame (method : string) (args : arguments)
    (s : ResolveBridge) (w : World) :
  let o := call_api_route ext method args s w in
  keeps_handles s o /\
  (existsb (String.eqb method) assigning_methods = false -> keeps_context s o).
Proof.
  cbv zeta. unfold call_api_route.
  destruct (String.prefix "project_" method); [apply project_handler_frame |].
  destruct (String.prefix "timeline_" method); [apply timeline_handler_frame |].
  destruct (String.prefix "media_" method).
  { pose proof (media_handler_frame method args s w) as H.
    split; [apply keeps_context_handles; exact H | intros _; exact H]. }
  destruct (String.prefix "color_" method);
    [split; [frame_done | intros _; frame_done] |].
  destruct (String.prefix "render_" method);
    [split; [frame_done | intros _; frame_done] |].
  pose proof (general_handler_frame method args s w) as H.
  split; [apply keeps_context_handles; exact H | intros _; exact H].
Qed.
End Frames.

Section CallFrames.
Context {World : Type}.
Variable ext : World -> forall c : call, (exn + reply c) * World.
Variable RESOLVE_AVAILABLE : bool.
Variable format_exc : exn -> string.

(** X4.  No request changes the application handle or the project manager
    obtained at start-up, and no request asks the application for more
    than one change, whatever the method, the arguments and the answers of
    the application.  A request stopped by a guard (scripting module
    missing, or application handle absent) calls nothing and leaves the
    context and the application as they were. *)
Theorem call_api_keeps_handles (method : string) (args : arguments)
    (s : ResolveBridge) (w : World) :
  let o := call_api ext RESOLVE_AVAILABLE format_exc method args s w in
  resolve (self o) = resolve s /\
  project_manager (self o) = project_manager s /\
  (length (mutations o) <= 1)%nat /\
  (RESOLVE_AVAILABLE = false \/ resolve s = None ->
   self o = s /\ world o = w /\ trace o = []).
Proof.
  cbv zeta. rewrite call_api_catches. unfold mutations. cbn [self world trace].
  assert (Hguard : RESOLVE_AVAILABLE = false \/ resolve s = None ->
            call_api_try ext RESOLVE_AVAILABLE method args s w =
            Out (inr (Error (if RESOLVE_AVAILABLE
                             then "DaVinci Resolve is not running"
                             else "DaVinci Resolve Python API not available")))
              s w [])
    by apply call_api_try_guarded.
  destruct RESOLVE_AVAILABLE eqn:Ha;
    [| rewrite Hguard by auto; simpl;
       split; [auto |]; split; [auto |]; split; [lia | auto]].
  destruct (resolve s) as [r |] eqn:Er;
    [| rewrite Hguard by auto; simpl; rewrite Er;
       split; [auto |]; split; [auto |]; split; [lia | auto]].
  rewrite (call_api_try_dispatch ext true method args s w r eq_refl Er).
  cbv zeta. cbn [value self world trace].
  destruct (refresh_frame ext s w) as [HRr HRp].
  pose proof (refresh_mutations ext s w) as HRm.
  destruct (route_frame ext method args
              (self (_refresh_current_objects ext s w))
              (world (_refresh_current_objects ext s w)))
    as [[Hr [Hp Hm]] _].
  unfold mutations in *.
  rewrite Hr, Hp, HRr, HRp, Er.
  split; [reflexivity |]. split; [reflexivity |]. split.
  - destruct (value (call_api_route ext method args _ _));
      rewrite ?app_nil_r, List.filter_app, HRm; exact Hm.
  - intros [Hg | Hg]; discriminate.
Qed.

(** X5.  Only [project_create], [project_open], [project_close] and
    [timeline_set_current] assign the session context.  For every other
    method the routed handler leaves the context exactly as it found it,
    so after the request the context is the one the refresh left: deleting
    the current timeline, for one, leaves the deleted timeline cached as
    current, and a created timeline is not made current. *)
Theorem only_four_methods_assign (method : string) (args : arguments)
    (s : ResolveBridge) (w : World) :
  existsb (String.eqb method) assigning_methods = false ->
  let R := _refresh_current_objects ext s w in
  let a := call_api ext RESOLVE_AVAILABLE format_exc method args s w in
  self (call_api_route ext method args s w) = s /\
  (RESOLVE_AVAILABLE = true -> resolve s <> None -> self a = self R) /\
  (RESOLVE_AVAILABLE = false \/ resolve s = None -> self a = s).
Proof.
  intros Hm. cbv zeta. split; [| split].
  - apply (proj2 (route_frame ext method args s w) Hm).
  - intros Ha Hr. destruct (resolve s) as [r |] eqn:Er; [| congruence].
    rewrite call_api_catches. cbn [self].
    rewrite (call_api_try_dispatch ext _ method args s w r Ha Er).
    cbv zeta. cbn [self].
    apply (proj2 (route_frame ext method args _ _) Hm).
  - intros Hg. rewrite call_api_catches. cbn [self].
    rewrite call_api_try_guarded by exact Hg. reflexivity.
Qed.
End CallFrames.

(** Deleting Cut, the current timeline of Film: the context still holds
    timeline 10. *)
Lemma only_four_methods_assign_witness :
  self (call_api Sim.ext true Sim.format_exc "timeline_delete"
          {["name"%string := "Cut"%string]} Sim.started Sim.film) =
  self (_refresh_current_objects Sim.ext Sim.started Sim.film).
Proof.
  apply (proj1 (proj2 (only_four_methods_assign Sim.ext true Sim.format_exc
                         "timeline_delete" {["name"%string := "Cut"%string]}
                         Sim.started Sim.film eq_refl))).
  - reflexivity.
  - discriminate.
Defined.

(** A refresh on Film while the bridge caches other references. *)
Lemma refresh_replaces_references_witness :
  self (_refresh_current_objects Sim.ext
          (Bridge (Some 1) (Some 2) (Some 4) (Some 7) None) Sim.film) =
  Bridge (Some 1) (Some 2) (Some 5) (Some 3) (Some 10).
Proof.
  apply (proj1 (proj1 (refresh_replaces_references Sim.ext
                   (Bridge (Some 1) (Some 2) (Some 4) (Some 7) None)
                   Sim.film Sim.film 2 5 eq_refl eq_refl)
                 (Some 3) (Some 10) Sim.film Sim.film eq_refl eq_refl)).
Defined.

(** The timelines of Film, listed. *)
Lemma get_timelines_lists_witness :
  value (_handle_general_method Sim.ext "get_timelines" ∅ Sim.started Sim.film)
  = inr (Result (PyList (names_of Sim.film_timelines))).
Proof.
  apply (get_timelines_lists Sim.ext ∅ Sim.started Sim.film 5
           Sim.film_timelines eq_refl sim_film_listing).
Defined.

Section Handlers.
Context {World : Type}.
Variable ext : World -> forall c : call, (exn + reply c) * World.
Variable RESOLVE_AVAILABLE : bool.
Variable format_exc : exn -> string.

(** X7.  An application without a current project is no error for the
    two queries: the refresh drops the cached project, and
    [get_current_project_name] returns the result [None] and
    [get_timelines] the empty list, after the one call of the refresh. *)
Theorem queries_without_project (args : arguments) (s : ResolveBridge)
    (w w1 : World) (pm : handle) :
  RESOLVE_AVAILABLE = true ->
  resolve s <> None ->
  project_manager s = Some pm ->
  ext w (GetCurrentProject pm) = (inr None, w1) ->
  call_api ext RESOLVE_AVAILABLE format_exc "get_current_project_name" args s w
    = Out (inr (Result PyNone)) (with_project None s) w1
        [GetCurrentProject pm] /\
  call_api ext RESOLVE_AVAILABLE format_exc "get_timelines" args s w
    = Out (inr (Result (PyList []))) (with_project None s) w1
        [GetCurrentProject pm].
Proof.
  intros Ha Hr Hpm Hcur.
  destruct (resolve s) as [r |] eqn:Er; [| congruence].
  assert (HR : _refresh_current_objects ext s w =
               Out (inr tt) (with_project None s) w1 [GetCurrentProject pm]).
  { unfold _refresh_current_objects, _refresh_current_objects_try.
    run_monad. rewrite Hpm. simpl. rewrite Hcur. reflexivity. }
  split; rewrite call_api_catches,
           (call_api_try_dispatch ext _ _ args s w r Ha Er), HR; reflexivity.
Qed.

(** X8.  [switch_page] hands the [page] argument to [OpenPage] as it is,
    the empty string when the argument is missing, and returns the answer
    of the application; [OpenPage] is the only change it asks for, and
    the context stays the refreshed one. *)
Theorem switch_page_passes_page_through (args : arguments)
    (s : ResolveBridge) (w : World) (r : handle) :
  RESOLVE_AVAILABLE = true ->
  resolve s = Some r ->
  let R := _refresh_current_objects ext s w in
  let page := get args "page" in
  let a := call_api ext RESOLVE_AVAILABLE format_exc "switch_page" args s w in
  (args !! "page"%string = None -> page = EmptyString) /\
  (forall v, args !! "page"%string = Some v -> page = v) /\
  mutations a = [OpenPage r page] /\
  self a = self R /\
  world a = snd (ext (world R) (OpenPage r page)) /\
  value a = inr match fst (ext (world R) (OpenPage r page)) with
                | inr success => Result (PyBool success)
                | inl e =>
                    ErrorTraceback ("API call failed: " ++ e) (format_exc e)
                end.
Proof.
  intros Ha Er. cbv zeta.
  split; [unfold get; intros ->; reflexivity |].
  split; [unfold get; intros v ->; reflexivity |].
  rewrite call_api_catches, (call_api_try_dispatch ext _ _ args s w r Ha Er).
  cbv zeta. cbn [value self world trace].
  change (call_api_route ext "switch_page" args)
    with (_handle_general_method ext "switch_page" args).
  destruct (refresh_frame ext s w) as [HRr _].
  pose proof (refresh_mutations ext s w) as HRm.
  unfold mutations in *.
  unfold _handle_general_method, bind, attr, invoke, ret, raise.
  cbn [String.eqb Ascii.eqb Bool.eqb].
  rewrite HRr, Er.
  destruct (ext (world (_refresh_current_objects ext s w))
              (OpenPage r (get args "page"))) as [[e | b] w1];
    cbn [value self world trace fst snd];
    rewrite ?app_nil_r, List.filter_app, HRm; auto.
Qed.

(** X9.  [project_close] hands the cached project, absent or not, to
    [CloseProject] and returns the answer.  On the answer [True] the three
    references are cleared; on [False] or an exception the context is the
    one before.  Without a project manager it fails and calls nothing. *)
Theorem project_close_outcome (args : arguments) (s : ResolveBridge)
    (w : World) :
  let o := _handle_project_method ext "project_close" args s w in
  match project_manager s with
  | None => o = Out (inr (Error "No project manager available")) s w []
  | Some pm =>
      trace o = [CloseProject pm (project s)] /\
      world o = snd (ext w (CloseProject pm (project s))) /\
      match fst (ext w (CloseProject pm (project s))) with
      | inr true =>
          value o = inr (Result (PyBool true)) /\
          self o = Bridge (resolve s) (project_manager s) None None None
      | inr false => value o = inr (Result (PyBool false)) /\ self o = s
      | inl e => value o = inl e /\ self o = s
      end
  end.
Proof.
  cbv zeta.
  unfold _handle_project_method, bind, attr, invoke, assign, ret.
  cbn [String.eqb Ascii.eqb Bool.eqb].
  destruct (project_manager s) as [pm |] eqn:Epm; [| reflexivity].
  destruct (ext w (CloseProject pm (project s))) as [[e | [|]] w1]; simpl;
    unfold with_timeline, with_media_pool, with_project; simpl;
    rewrite ?Epm; auto.
Qed.

(** X10.  [timeline_create] needs the media pool only.  With one cached
    it asks for exactly one timeline of the given name and reports
    success when the application hands one out, failure when it does
    not; without one it fails and calls nothing.  In no case does it
    assign the context: the new timeline is not made current. *)
Theorem timeline_create_outcome (args : arguments) (s : ResolveBridge)
    (w : World) :
  let name := get args "name" in
  let o := _handle_timeline_method ext "timeline_create" args s w in
  self o = s /\
  match media_pool s with
  | None =>
      o = Out (inr (Error ("Failed to create timeline '" ++ name ++ "'")))
            s w []
  | Some mp =>
      trace o = [CreateEmptyTimeline mp name] /\
      world o = snd (ext w (CreateEmptyTimeline mp name)) /\
      value o = match fst (ext w (CreateEmptyTimeline mp name)) with
                | inr (Some _) =>
                    inr (Result (PyStr ("Created timeline '" ++ name ++ "'")))
                | inr None =>
                    inr (Error ("Failed to create timeline '" ++ name ++ "'"))
                | inl e => inl e
                end
  end.
Proof.
  cbv zeta.
  unfold _handle_timeline_method, bind, attr, invoke, ret.
  cbn [String.eqb Ascii.eqb Bool.eqb].
  destruct (media_pool s) as [mp |]; [| auto].
  destruct (ext w (CreateEmptyTimeline mp (get args "name")))
    as [[e | [t |]] w1]; simpl; auto.
Qed.

(** X11.  [media_import] hands the application a batch of exactly one
    path, the [file_path] argument.  An empty answer is a failure and any
    non-empty answer a success, both naming the path; without a media
    pool it fails and calls nothing; the context is never assigned. *)
Theorem media_import_outcome (args : arguments) (s : ResolveBridge)
    (w : World) :
  let file_path := get args "file_path" in
  let o := _handle_media_method ext "media_import" args s w in
  self o = s /\
  match media_pool s with
  | None =>
      o = Out (inr (Error ("Failed to import media: " ++ file_path))) s w []
  | Some mp =>
      trace o = [ImportMedia mp [file_path]] /\
      world o = snd (ext w (ImportMedia mp [file_path])) /\
      value o = match fst (ext w (ImportMedia mp [file_path])) with
                | inr [] =>
                    inr (Error ("Failed to import media: " ++ file_path))
                | inr (_ :: _) =>
                    inr (Result (PyStr ("Imported media: " ++ file_path)))
                | inl e => inl e
                end
  end.
Proof.
  cbv zeta.
  unfold _handle_media_method, bind, attr, invoke, ret.
  cbn [String.eqb Ascii.eqb Bool.eqb].
  destruct (media_pool s) as [mp |]; [| auto].
  destruct (ext w (ImportMedia mp [get args "file_path"]))
    as [[e | [| c l]] w1]; simpl; auto.
Qed.

(** X12.  [media_create_bin] does not look for a bin of the same name:
    with a media pool cached, every run asks the application for a new
    bin, so two runs in a row with the same name ask twice, whatever the
    first answer was. *)
Theorem media_create_bin_asks_every_time (args : arguments)
    (s : ResolveBridge) (w : World) (mp : handle) :
  media_pool s = Some mp ->
  let name := get args "name" in
  let o1 := _handle_media_method ext "media_create_bin" args s w in
  let o2 := _handle_media_method ext "media_create_bin" args
              (self o1) (world o1) in
  trace o1 = [CreateBin mp name] /\
  trace o2 = [CreateBin mp name] /\
  value o1 = match fst (ext w (CreateBin mp name)) with
             | inr (Some _) =>
                 inr (Result (PyStr ("Created bin '" ++ name ++ "'")))
             | inr None => inr (Error ("Failed to create bin '" ++ name ++ "'"))
             | inl e => inl e
             end.
Proof.
  intros Hmp. cbv zeta.
  assert (H : forall w0,
            let o := _handle_media_method ext "media_create_bin" args s w0 in
            self o = s /\ trace o = [CreateBin mp (get args "name")] /\
            value o = match fst (ext w0 (CreateBin mp (get args "name"))) with
                      | inr (Some _) =>
                          inr (Result (PyStr ("Created bin '" ++
                                              get args "name" ++ "'")))
                      | inr None =>
                          inr (Error ("Failed to create bin '" ++
                                      get args "name" ++ "'"))
                      | inl e => inl e
                      end).
  { intros w0. cbv zeta.
    unfold _handle_media_method, bind, attr, invoke, ret.
    cbn [String.eqb Ascii.eqb Bool.eqb]. rewrite Hmp.
    destruct (ext w0 (CreateBin mp (get args "name"))) as [[e | [b |]] w1];
      simpl; auto. }
  destruct (H w) as [Hs [Ht Hv]]. cbv zeta in *.
  rewrite Hs. destruct (H (world (_handle_media_method ext "media_create_bin"
                                    args s w))) as [_ [Ht2 _]].
  auto.
Qed.
End Handlers.

Section Unknown.
Context {World : Type}.
Variable ext : World -> forall c : call, (exn + reply c) * World.

(** A method with one of the five prefixes goes to the handler of that
    prefix. *)
Lemma route_by_prefix (method : string) (args : arguments) :
  (String.prefix "project_" method = true ->
   call_api_route ext method args = _handle_project_method ext method args) /\
  (String.prefix "timeline_" method = true ->
   call_api_route ext method args = _handle_timeline_method ext method args) /\
  (String.prefix "media_" method = true ->
   call_api_route ext method args = _handle_media_method ext method args) /\
  (String.prefix "color_" method = true ->
   call_api_route ext method args = _handle_color_method method args) /\
  (String.prefix "render_" method = true ->
   call_api_route ext method args = _handle_render_method method args).
Proof.
  unfold call_api_route.
  generalize (_handle_general_method ext) (_handle_project_method ext)
    (_handle_timeline_method ext) (_handle_media_method ext)
    (@_handle_color_method World) (@_handle_render_method World).
  intros hg hp ht hm hc hr.
  destruct method as [| [[] [] [] [] [] [] [] []] m']; cbn;
    split_tests m'; repeat split; intros H; try reflexivity; discriminate.
Qed.

(** X13.  A method that has the prefix of a handler group but is none of
    the methods of the group is reported as unknown, under its full
    name, by the handler of the group; every method with the prefix
    [color_] or [render_] is reported as not implemented.  In both cases
    the handler calls nothing and assigns nothing. *)
Theorem unknown_methods_are_reported (method : string) (args : arguments) :
  (String.prefix "project_" method = true ->
   existsb (String.eqb method) project_methods = false ->
   call_api_route ext method args =
     ret (Error ("Unknown project method: " ++ method))) /\
  (String.prefix "timeline_" method = true ->
   existsb (String.eqb method) timeline_methods = false ->
   call_api_route ext method args =
     ret (Error ("Unknown timeline method: " ++ method))) /\
  (String.prefix "media_" method = true ->
   existsb (String.eqb method) media_methods = false ->
   call_api_route ext method args =
     ret (Error ("Unknown media method: " ++ method))) /\
  (String.prefix "color_" method = true ->
   call_api_route ext method args =
     ret (Error ("Color method not implemented: " ++ method))) /\
  (String.prefix "render_" method = true ->
   call_api_route ext method args =
     ret (Error ("Render method not implemented: " ++ method))).
Proof.
  destruct (route_by_prefix method args) as [Hp [Ht [Hm [Hc Hr]]]].
  repeat split.
  - intros Hpre H. rewrite (Hp Hpre). unfold project_methods in H. simpl in H.
    repeat (apply orb_false_elim in H; destruct H as [? H]).
    unfold _handle_project_method.
    repeat match goal with
      | E : String.eqb _ _ = false |- _ => rewrite E; clear E
      end.
    reflexivity.
  - intros Hpre H. rewrite (Ht Hpre). unfold timeline_methods in H. simpl in H.
    repeat (apply orb_false_elim in H; destruct H as [? H]).
    unfold _handle_timeline_method.
    repeat match goal with
      | E : String.eqb _ _ = false |- _ => rewrite E; clear E
      end.
    reflexivity.
  - intros Hpre H. rewrite (Hm Hpre). unfold media_methods in H. simpl in H.
    repeat (apply orb_false_elim in H; destruct H as [? H]).
    unfold _handle_media_method.
    repeat match goal with
      | E : String.eqb _ _ = false |- _ => rewrite E; clear E
      end.
    reflexivity.
  - intros Hpre. rewrite (Hc Hpre). reflexivity.
  - intros Hpre. rewrite (Hr Hpre). reflexivity.
Qed.
End Unknown.

Section Arguments.
Context {World : Type}.
Variable ext : World -> forall c : call, (exn + reply c) * World.
Variable RESOLVE_AVAILABLE : bool.
Variable format_exc : exn -> string.

(** X14.  A request reads its arguments under the keys [name], [page]
    and [file_path] and under no other key: two argument mappings that
    agree on these three give the same run.  A missing key counts as the
    empty string, so leaving a key out and giving it the empty string
    give the same run too. *)
Theorem call_api_reads_three_keys (method : string) (args args' : arguments)
    (s : ResolveBridge) (w : World) :
  get args "name" = get args' "name" ->
  get args "page" = get args' "page" ->
  get args "file_path" = get args' "file_path" ->
  call_api ext RESOLVE_AVAILABLE format_exc method args s w =
  call_api ext RESOLVE_AVAILABLE format_exc method args' s w.
Proof.
  intros Hn Hp Hf.
  unfold call_api, call_api_try, call_api_route, _handle_general_method,
    _handle_project_method, _handle_timeline_method, _handle_media_method,
    _handle_color_method, _handle_render_method.
  rewrite Hn, Hp, Hf. reflexivity.
Qed.
End Arguments.

Section EmptyProject.
Context {World : Type}.
Variable ext : World -> forall c : call, (exn + reply c) * World.

Lemma range_empty (n : Z) : (n <= 0)%Z -> range 1 (n + 1) = [].
Proof.
  intros H. unfold range, seqZ.
  replace (Z.to_nat (n + 1 - 1)) with 0%nat by lia. reflexivity.
Qed.

(** X15.  When the application counts no timeline, or answers a negative
    count, the scans visit no index: [get_timelines] returns the empty
    list, [timeline_delete] and [timeline_set_current] answer "not
    found", and the count is the only thing either asked. *)
Theorem empty_project_scans_nothing (args : arguments) (s : ResolveBridge)
    (w w1 : World) (p : handle) (n : Z) :
  project s = Some p ->
  ext w (GetTimelineCount p) = (inr n, w1) ->
  (n <= 0)%Z ->
  let missing := Error ("Timeline '" ++ get args "name" ++ "' not found") in
  _handle_general_method ext "get_timelines" args s w =
    Out (inr (Result (PyList []))) s w1 [GetTimelineCount p] /\
  _handle_timeline_method ext "timeline_delete" args s w =
    Out (inr missing) s w1 [GetTimelineCount p] /\
  _handle_timeline_method ext "timeline_set_current" args s w =
    Out (inr missing) s w1 [GetTimelineCount p].
Proof.
  intros Hp Hc Hn. cbv zeta.
  rewrite timeline_delete_run, timeline_set_current_run, Hp, Hc.
  rewrite (range_empty n Hn). split; [| split; reflexivity].
  unfold _handle_general_method, bind, attr, invoke, ret.
  cbn [String.eqb Ascii.eqb Bool.eqb].
  rewrite Hp, Hc, (range_empty n Hn). reflexivity.
Qed.
End EmptyProject.

Section PartialUpdate.
Context {World : Type}.
Variable ext : World -> forall c : call, (exn + reply c) * World.
Variable RESOLVE_AVAILABLE : bool.
Variable format_exc : exn -> string.

(** X16.  [project_create] assigns the project before it asks for the
    media pool.  When the application creates the project and then raises
    on [GetMediaPool], the request is answered with the error of that
    exception although the context already holds the new project, next to
    the media pool and the timeline the refresh had left.  When the
    application creates nothing, the request fails under the name of the
    project and the context is the refreshed one. *)
Theorem project_create_partial_update (args : arguments) (s : ResolveBridge)
    (w : World) (r pm : handle) :
  RESOLVE_AVAILABLE = true ->
  resolve s = Some r ->
  project_manager s = Some pm ->
  let name := get args "name" in
  let R := _refresh_current_objects ext s w in
  let a := call_api ext RESOLVE_AVAILABLE format_exc "project_create" args s w in
  (forall p w1 e w2,
     ext (world R) (CreateProject pm name) = (inr (Some p), w1) ->
     ext w1 (GetMediaPool p) = (inl e, w2) ->
     value a = inr (ErrorTraceback ("API call failed: " ++ e) (format_exc e)) /\
     self a = with_project (Some p) (self R)) /\
  (forall w1,
     ext (world R) (CreateProject pm name) = (inr None, w1) ->
     value a = inr (Error ("Failed to create project '" ++ name ++ "'")) /\
     self a = self R).
Proof.
  intros Ha Er Hpm. cbv zeta.
  destruct (refresh_frame ext s w) as [_ HRp].
  rewrite call_api_catches, (call_api_try_dispatch ext _ _ args s w r Ha Er).
  cbv zeta. cbn [value self].
  change (call_api_route ext "project_create" args)
    with (_handle_project_method ext "project_create" args).
  rewrite project_create_run. cbv zeta. rewrite HRp, Hpm.
  unfold adopt_project. split.
  - intros p w1 e w2 Hc Hm. rewrite Hc. cbn [fst snd]. rewrite Hm. auto.
  - intros w1 Hc. rewrite Hc. auto.
Qed.
End PartialUpdate.

(** ** Further runs on the small host application *)

(** The project name, asked after the project was closed by hand. *)
Lemma queries_without_project_witness :
  call_api Sim.ext true Sim.format_exc "get_current_project_name" ∅
    Sim.started Sim.closed =
  Out (inr (Result PyNone)) (with_project None Sim.started) Sim.closed
    [GetCurrentProject 2].
Proof.
  refine (proj1 (queries_without_project Sim.ext true Sim.format_exc ∅
                   Sim.started Sim.closed Sim.closed 2
                   eq_refl _ eq_refl eq_refl)).
  discriminate.
Defined.

(** Switching to the edit page. *)
Lemma switch_page_passes_page_through_witness :
  mutations (call_api Sim.ext true Sim.format_exc "switch_page"
               {["page"%string := "edit"%string]} Sim.started Sim.film) =
  [OpenPage 1 "edit"].
Proof.
  exact (proj1 (proj2 (proj2
           (switch_page_passes_page_through Sim.ext true Sim.format_exc
              {["page"%string := "edit"%string]} Sim.started Sim.film 1
              eq_refl eq_refl)))).
Defined.

(** Two bins named Rushes. *)
Lemma media_create_bin_asks_every_time_witness :
  trace (_handle_media_method Sim.ext "media_create_bin"
           {["name"%string := "Rushes"%string]}
           (self (_handle_media_method Sim.ext "media_create_bin"
                    {["name"%string := "Rushes"%string]} Sim.started Sim.film))
           (world (_handle_media_method Sim.ext "media_create_bin"
                     {["name"%string := "Rushes"%string]} Sim.started Sim.film)))
  = [CreateBin 3 "Rushes"].
Proof.
  exact (proj1 (proj2
           (media_create_bin_asks_every_time Sim.ext
              {["name"%string := "Rushes"%string]} Sim.started Sim.film 3
              eq_refl))).
Defined.

(** A timeline method the bridge does not have. *)
Lemma unknown_methods_are_reported_witness :
  call_api_route Sim.ext "timeline_rename" ∅ =
  ret (Error "Unknown timeline method: timeline_rename").
Proof.
  exact (proj1 (proj2 (unknown_methods_are_reported Sim.ext
                         "timeline_rename" ∅)) eq_refl eq_refl).
Defined.

(** A frame rate among the arguments of [timeline_create] is not read. *)
Lemma call_api_reads_three_keys_witness :
  call_api Sim.ext true Sim.format_exc "timeline_create"
    {["name"%string := "A"%string; "frame_rate"%string := "24"%string]}
    Sim.started Sim.film =
  call_api Sim.ext true Sim.format_exc "timeline_create"
    {["name"%string := "A"%string]} Sim.started Sim.film.
Proof.
  apply (call_api_reads_three_keys Sim.ext true Sim.format_exc
           "timeline_create"
           {["name"%string := "A"%string; "frame_rate"%string := "24"%string]}
           {["name"%string := "A"%string]} Sim.started Sim.film);
    vm_compute; reflexivity.
Defined.

(** A project without timelines. *)
Lemma empty_project_scans_nothing_witness :
  _handle_timeline_method Sim.ext "timeline_delete"
    {["name"%string := "Cut"%string]} Sim.started
    (Sim.App (Some 5) "Film" [] 20 false) =
  Out (inr (Error "Timeline 'Cut' not found")) Sim.started
    (Sim.App (Some 5) "Film" [] 20 false) [GetTimelineCount 5].
Proof.
  refine (proj1 (proj2
            (empty_project_scans_nothing Sim.ext
               {["name"%string := "Cut"%string]} Sim.started
               (Sim.App (Some 5) "Film" [] 20 false)
               (Sim.App (Some 5) "Film" [] 20 false) 5 0
               eq_refl eq_refl _))).
  reflexivity.
Defined.

(** Creating Pilot while the media pool cannot be reached. *)
Lemma project_create_partial_update_witness :
  value (call_api ext_without_pool true Sim.format_exc "project_create"
           {["name"%string := "Pilot"%string]} Sim.started Sim.film) =
    inr (ErrorTraceback "API call failed: media pool unavailable"
           (Sim.format_exc "media pool unavailable")) /\
  self (call_api ext_without_pool true Sim.format_exc "project_create"
          {["name"%string := "Pilot"%string]} Sim.started Sim.film) =
    with_project (Some 20)
      (self (_refresh_current_objects ext_without_pool Sim.started Sim.film)).
Proof.
  apply (proj1 (project_create_partial_update ext_without_pool true
                  Sim.format_exc {["name"%string := "Pilot"%string]}
                  Sim.started Sim.film 1 2 eq_refl eq_refl eq_refl)
           20 (Sim.App (Some 20) "Pilot" [] 21 false)
           "media pool unavailable"%string
           (Sim.App (Some 20) "Pilot" [] 21 false)).
  - vm_compute. reflexivity.
  - reflexivity.
Defined.
